(** * Internal transfers: accounts, transfers and their audit trail

    A shallow embedding of the Go services of the repository
    (package [service] on top of package [repository]) and the properties
    of the transfer protocol.

    - Go's [float64] is Rocq's primitive binary64 [float]; [<], [<=], [+]
      and [-] are the IEEE 754 operations of [PrimFloat].  The store keeps
      the float64 it is handed: the rounding of the DECIMAL(18,2) columns
      is not part of the model, and the balances evaluated below are
      integers under 10^16, which such a column holds exactly.
    - The PostgreSQL database behind [*sql.DB] is a record of three tables;
      an open [*sql.Tx] is a working copy of the tables that [Commit]
      installs and [Rollback] discards.
    - Every statement sent to the database is appended to a trace, and an
      oracle of the environment says which statements fail for reasons
      the code does not inspect (connection loss, deadline, constraint or
      type errors of the store).  The outcomes the code does inspect,
      [sql.ErrNoRows], the unique violation 23505 and the number of rows
      an UPDATE affected, are computed from the tables.  Each statement
      fails or not on its own: a failed statement does not doom the
      transaction it ran in. *)

From Stdlib Require Import ZArith Floats Bool Lia.
From stdpp Require Import gmap strings list.

Local Open Scope string_scope.

(** Go's [float64]. *)
Abbreviation float64 := float.

(** [time.Time], as a point on the database clock. *)
Definition Time : Type := Z.

(* ================================================================= *)
(** ** Package errors *)

Module errors.

(** Go [error] values.  The seven sentinels are the package variables of
    errors.go; [ValidationError] and [TransactionError] are its two struct
    types; [Errorf] is [fmt.Errorf("<prefix>: %w", cause)].  The remaining
    constructors are the errors of the libraries underneath:
    [sql.ErrNoRows], a failure of the driver, and the error of
    [json.Marshal] on a value it does not support. *)
Inductive error : Type :=
| ErrAccountNotFound
| ErrAccountAlreadyExists
| ErrInsufficentBalance
| ErrInvalidAmount
| ErrInvalidAccountID
| ErrSameAccount
| ErrNegativeBalance
| ValidationError (Field Message : string)
| TransactionError (Operation : string) (Cause : error)
| Errorf (prefix : string) (cause : error)
| sql_ErrNoRows
| sql_ErrTxDone
| DriverError
| json_UnsupportedValueError.

#[global] Instance error_eq_dec : EqDecision error.
Proof. solve_decision. Defined.

Definition NewValidationError (field message : string) : error :=
  ValidationError field message.

Definition NewTransactionError (operation : string) (cause : error) : error :=
  TransactionError operation cause.

(** [errors.Is]: [err] or an error it wraps is [target]. *)
Fixpoint Is (err target : error) : bool :=
  if decide (err = target) then true
  else match err with
       | TransactionError _ cause => Is cause target
       | Errorf _ cause => Is cause target
       | _ => false
       end.

Definition IsNotFound (err : error) : bool := Is err ErrAccountNotFound.

Definition IsInsufficientBalance (err : error) : bool :=
  Is err ErrInsufficentBalance.

Definition IsAlreadyExists (err : error) : bool :=
  Is err ErrAccountAlreadyExists.

(** [errors.As] with a [*ValidationError] target. *)
Fixpoint IsValidationError (err : error) : bool :=
  match err with
  | ValidationError _ _ => true
  | TransactionError _ cause => IsValidationError cause
  | Errorf _ cause => IsValidationError cause
  | _ => false
  end.

End errors.

(** A Go result pair [(value, error)] with [error == nil] or not. *)
Inductive result (A : Type) : Type :=
| Ok (a : A)
| Err (e : errors.error).
Arguments Ok {A} a.
Arguments Err {A} e.

(* ================================================================= *)
(** ** Package models *)

Module models.

Record Account : Type := mkAccount {
  Account_ID : string;
  Account_Balance : float64;
  Account_CreatedAt : Time;
  Account_UpdatedAt : Time
}.

Record Transaction : Type := mkTransaction {
  Transaction_ID : string;
  Transaction_SourceAccountID : string;
  Transaction_DestinationAccountID : string;
  Transaction_Amount : float64;
  Transaction_CreatedAt : Time
}.

(** The JSON documents the services marshal into [json.RawMessage]:
    an [AccountBalanceSnapshot] and the anonymous transaction snapshot of
    [createTransferAuditLog]. *)
Inductive RawMessage : Type :=
| AccountBalanceSnapshot (ID : string) (Balance : float64)
| TransactionSnapshot (ID SourceAccountID DestinationAccountID : string)
                      (Amount : float64).

(** [json.Marshal] refuses NaN and the infinities. *)
Definition json_Marshal (v : RawMessage) : result RawMessage :=
  let number :=
    match v with
    | AccountBalanceSnapshot _ b => b
    | TransactionSnapshot _ _ _ a => a
    end in
  if PrimFloat.is_nan number || PrimFloat.is_infinity number
  then Err errors.json_UnsupportedValueError
  else Ok v.

(** A nil [json.RawMessage] is [None]. *)
Record AuditLog : Type := mkAuditLog {
  AuditLog_ID : string;
  AuditLog_EntityType : string;
  AuditLog_EntityID : string;
  AuditLog_Action : string;
  AuditLog_OldValue : option RawMessage;
  AuditLog_NewValue : option RawMessage;
  AuditLog_CreatedAt : Time
}.

Definition AuditActionCreate : string := "CREATE".
Definition AuditActionUpdate : string := "UPDATE".
Definition AuditActionTransfer : string := "TRANSFER".

Definition EntityTypeAccount : string := "ACCOUNT".
Definition EntityTypeTransaction : string := "TRANSACTION".

Record CreateAccountRequest : Type := mkCreateAccountRequest {
  CreateAccountRequest_ID : string;
  CreateAccountRequest_InitialBalance : float64
}.

Record CreateTransactionRequest : Type := mkCreateTransactionRequest {
  SourceAccountID : string;
  DestinationAccountID : string;
  Amount : float64
}.

End models.

Import errors models.

(* ================================================================= *)
(** ** The database *)

(** The three tables of 001_init.sql.  [accounts] has [id] as its primary
    key; the other two are only ever appended to. *)
Record Tables : Type := mkTables {
  accounts : gmap string Account;
  transactions : list Transaction;
  audit_logs : list AuditLog
}.

(** The statements the repositories send, and the one driver call that
    can fail after its statement ran, [result.RowsAffected] of the UPDATE
    of [id].  [SelectAccountForUpdate] is the locking read: it takes the
    exclusive row lock of [id]. *)
Inductive stmt : Type :=
| BeginTx
| Commit
| Rollback
| InsertAccount (id : string)
| SelectAccount (id : string)
| SelectAccountForUpdate (id : string)
| UpdateBalance (id : string)
| RowsAffected (id : string)
| SelectExists (id : string)
| InsertTransaction (source destination : string)
| InsertAuditLog (in_tx : bool) (entity_type entity_id action : string).

(** What the code cannot decide: which statements the store fails, the
    database clock and the identifiers drawn at random, each indexed by
    the number of statements sent so far. *)
Record Env : Type := mkEnv {
  fails : stmt → bool;
  clock : nat → Time;
  uuid : nat → string
}.

(** [committed] is what every other unit of work observes; [session] is
    the working copy of the open transaction, if any; [trace] lists the
    statements in the order they were sent. *)
Record World : Type := mkWorld {
  committed : Tables;
  session : option Tables;
  trace : list stmt
}.

(** Sends [s]: logs it and asks the oracle whether it failed. *)
Definition send (env : Env) (s : stmt) (w : World) : bool * World :=
  (fails env s,
   mkWorld (committed w) (session w) (trace w ++ [s])).

Definition now (env : Env) (w : World) : Time := clock env (length (trace w)).

Definition fresh_uuid (env : Env) (w : World) : string :=
  uuid env (length (trace w)).

(** [db.BeginTx]. *)
Definition db_BeginTx (env : Env) (w : World) : result unit * World :=
  let '(failed, w) := send env BeginTx w in
  if failed then (Err DriverError, w)
  else (Ok tt, mkWorld (committed w) (Some (committed w)) (trace w)).

(** [tx.Commit]: installs the working copy. *)
Definition tx_Commit (env : Env) (w : World) : option error * World :=
  match session w with
  | None => (Some sql_ErrTxDone, w)
  | Some t =>
      let '(failed, w) := send env Commit w in
      if failed then (Some DriverError, mkWorld (committed w) None (trace w))
      else (None, mkWorld t None (trace w))
  end.

(** [tx.Rollback]: discards the working copy; its error is ignored by the
    only caller. *)
Definition tx_Rollback (env : Env) (w : World) : World :=
  match session w with
  | None => w
  | Some _ =>
      let '(_, w) := send env Rollback w in
      mkWorld (committed w) None (trace w)
  end.

(** The statements that take a row lock, in the order they were sent. *)
Fixpoint locks (t : list stmt) : list string :=
  match t with
  | [] => []
  | SelectAccountForUpdate id :: t => id :: locks t
  | _ :: t => locks t
  end.

(** Byte-wise lexicographic order of Go strings, on the lock sequence. *)
Fixpoint lex_ordered (ids : list string) : bool :=
  match ids with
  | a :: (b :: _) as rest => String.leb a b && lex_ordered rest
  | _ => true
  end.

(* ================================================================= *)
(** ** Package repository *)

Module repository.

Module PostgresAccountRepository.

(** [PostgresAccountRepository.CreateAccount]: the INSERT runs on the
    connection itself; a taken [id] is the unique violation 23505.  The
    account the caller passed is filled with the timestamps on success. *)
Definition CreateAccount (env : Env) (account : Account) (w : World)
  : option error * Account * World :=
  let t := now env w in
  let '(failed, w) := send env (InsertAccount (Account_ID account)) w in
  if failed then
    (Some (Errorf "failed to create account" DriverError), account, w)
  else
    match accounts (committed w) !! Account_ID account with
    | Some _ => (Some ErrAccountAlreadyExists, account, w)
    | None =>
        let row := mkAccount (Account_ID account) (Account_Balance account) t t in
        let tables := mkTables (<[Account_ID account := row]> (accounts (committed w)))
                               (transactions (committed w))
                               (audit_logs (committed w)) in
        (None, row, mkWorld tables (session w) (trace w))
    end.

(** [PostgresAccountRepository.GetAccountByID]. *)
Definition GetAccountByID (env : Env) (id : string) (w : World)
  : result Account * World :=
  let '(failed, w) := send env (SelectAccount id) w in
  if failed then (Err (Errorf "failed to get account by ID" DriverError), w)
  else
    match accounts (committed w) !! id with
    | None => (Err ErrAccountNotFound, w)
    | Some account => (Ok account, w)
    end.

(** [PostgresAccountRepository.GetAccountByIDForUpdate]: the locking read
    inside the open transaction. *)
Definition GetAccountByIDForUpdate (env : Env) (id : string) (w : World)
  : result Account * World :=
  match session w with
  | None => (Err (Errorf "failed to get account by ID for update" sql_ErrTxDone), w)
  | Some t =>
      let '(failed, w) := send env (SelectAccountForUpdate id) w in
      if failed then
        (Err (Errorf "failed to get account by ID for update" DriverError), w)
      else
        match accounts t !! id with
        | None => (Err ErrAccountNotFound, w)
        | Some account => (Ok account, w)
        end
  end.

(** [PostgresAccountRepository.UpdateAccountBalance]: the UPDATE changes
    the row of [id] if there is one; no row affected is
    [ErrAccountNotFound]. *)
Definition UpdateAccountBalance (env : Env) (id : string) (newBalance : float64)
    (w : World) : option error * World :=
  match session w with
  | None => (Some (Errorf "failed to update account balance" sql_ErrTxDone), w)
  | Some t =>
      let ts := now env w in
      let '(failed, w) := send env (UpdateBalance id) w in
      if failed then
        (Some (Errorf "failed to update account balance" DriverError), w)
      else
        let '(rowsAffected, t') :=
          match accounts t !! id with
          | None => (0%Z, t)
          | Some row =>
              let row' := mkAccount (Account_ID row) newBalance
                                    (Account_CreatedAt row) ts in
              (1%Z, mkTables (<[id := row']> (accounts t))
                             (transactions t) (audit_logs t))
          end in
        let w := mkWorld (committed w) (Some t') (trace w) in
        let '(failed, w) := send env (RowsAffected id) w in
        if failed then
          (Some (Errorf "failed to get rows affected after updating account balance"
                        DriverError), w)
        else if (rowsAffected =? 0)%Z then (Some ErrAccountNotFound, w)
        else (None, w)
  end.

(** [PostgresAccountRepository.AccountExists]. *)
Definition AccountExists (env : Env) (id : string) (w : World)
  : result bool * World :=
  let '(failed, w) := send env (SelectExists id) w in
  if failed then
    (Err (Errorf "failed to check if account exists" DriverError), w)
  else (Ok (bool_decide (is_Some (accounts (committed w) !! id))), w).

End PostgresAccountRepository.

Module PostgresTransactionRepository.

(** [PostgresTransactionRepository.Create]: draws the identifier when the
    caller left it empty and appends the row inside the transaction. *)
Definition Create (env : Env) (transaction : Transaction) (w : World)
  : option error * Transaction * World :=
  let transaction :=
    if decide (Transaction_ID transaction = "") then
      mkTransaction (fresh_uuid env w)
                    (Transaction_SourceAccountID transaction)
                    (Transaction_DestinationAccountID transaction)
                    (Transaction_Amount transaction)
                    (Transaction_CreatedAt transaction)
    else transaction in
  match session w with
  | None =>
      (Some (Errorf "failed to create transaction" sql_ErrTxDone), transaction, w)
  | Some t =>
      let ts := now env w in
      let '(failed, w) :=
        send env (InsertTransaction (Transaction_SourceAccountID transaction)
                                    (Transaction_DestinationAccountID transaction)) w in
      if failed then
        (Some (Errorf "failed to create transaction" DriverError), transaction, w)
      else
        let row := mkTransaction (Transaction_ID transaction)
                                 (Transaction_SourceAccountID transaction)
                                 (Transaction_DestinationAccountID transaction)
                                 (Transaction_Amount transaction) ts in
        let t' := mkTables (accounts t) (transactions t ++ [row]) (audit_logs t) in
        (None, row, mkWorld (committed w) (Some t') (trace w))
  end.

End PostgresTransactionRepository.

Module PostgresAuditRepository.

(** The row an audit INSERT stores: the store draws [id] and stamps it. *)
Definition audit_row (env : Env) (w : World) (log : AuditLog) : AuditLog :=
  mkAuditLog (fresh_uuid env w) (AuditLog_EntityType log) (AuditLog_EntityID log)
             (AuditLog_Action log) (AuditLog_OldValue log) (AuditLog_NewValue log)
             (now env w).

(** [PostgresAuditRepository.Create]: the INSERT inside the transaction. *)
Definition Create (env : Env) (log : AuditLog) (w : World)
  : option error * World :=
  match session w with
  | None => (Some (Errorf "failed to create audit log" sql_ErrTxDone), w)
  | Some t =>
      let row := audit_row env w log in
      let '(failed, w) :=
        send env (InsertAuditLog true (AuditLog_EntityType log)
                                 (AuditLog_EntityID log) (AuditLog_Action log)) w in
      if failed then (Some (Errorf "failed to create audit log" DriverError), w)
      else
        let t' := mkTables (accounts t) (transactions t) (audit_logs t ++ [row]) in
        (None, mkWorld (committed w) (Some t') (trace w))
  end.

(** [PostgresAuditRepository.CreateWithDB]: the same INSERT on the
    connection itself. *)
Definition CreateWithDB (env : Env) (log : AuditLog) (w : World)
  : option error * World :=
  let row := audit_row env w log in
  let '(failed, w) :=
    send env (InsertAuditLog false (AuditLog_EntityType log)
                             (AuditLog_EntityID log) (AuditLog_Action log)) w in
  if failed then (Some (Errorf "failed to create audit log" DriverError), w)
  else
    let tables := mkTables (accounts (committed w)) (transactions (committed w))
                           (audit_logs (committed w) ++ [row]) in
    (None, mkWorld tables (session w) (trace w)).

End PostgresAuditRepository.

End repository.

(* ================================================================= *)
(** ** Package service *)

Module service.

Import repository.

Module AccountServiceImpl.

Definition validateCreateRequest (req : CreateAccountRequest) : option error :=
  if decide (CreateAccountRequest_ID req = "") then Some ErrInvalidAccountID
  else if PrimFloat.ltb (CreateAccountRequest_InitialBalance req) 0
  then Some ErrNegativeBalance
  else None.

Definition createAccoutAuditLog (env : Env) (account : Account) (w : World)
  : option error * World :=
  let snapshot :=
    AccountBalanceSnapshot (Account_ID account) (Account_Balance account) in
  match json_Marshal snapshot with
  | Err err => (Some err, w)
  | Ok newValue =>
      let auditLog :=
        mkAuditLog "" EntityTypeAccount (Account_ID account) AuditActionCreate
                   None (Some newValue) 0%Z in
      PostgresAuditRepository.CreateWithDB env auditLog w
  end.

(** The audit error is logged and dropped. *)
Definition CreateAccount (env : Env) (req : CreateAccountRequest) (w : World)
  : result Account * World :=
  match validateCreateRequest req with
  | Some err => (Err err, w)
  | None =>
      let account :=
        mkAccount (CreateAccountRequest_ID req)
                  (CreateAccountRequest_InitialBalance req) 0%Z 0%Z in
      match PostgresAccountRepository.CreateAccount env account w with
      | (Some err, _, w) =>
          if IsAlreadyExists err then (Err err, w) else (Err err, w)
      | (None, account, w) =>
          let '(_, w) := createAccoutAuditLog env account w in
          (Ok account, w)
      end
  end.

Definition GetAccount (env : Env) (id : string) (w : World)
  : result Account * World :=
  if decide (id = "") then (Err ErrInvalidAccountID, w)
  else
    match PostgresAccountRepository.GetAccountByID env id w with
    | (Err err, w) => if IsNotFound err then (Err err, w) else (Err err, w)
    | (Ok account, w) => (Ok account, w)
    end.

End AccountServiceImpl.

Module TransactionServiceImpl.

Definition validateTransferRequest (req : CreateTransactionRequest)
  : option error :=
  if decide (SourceAccountID req = "") then
    Some (NewValidationError "source_account_id" "must be non-empty")
  else if decide (DestinationAccountID req = "") then
    Some (NewValidationError "destination_account_id" "must be non-empty")
  else if decide (SourceAccountID req = DestinationAccountID req) then
    Some ErrSameAccount
  else if PrimFloat.leb (Amount req) 0 then Some ErrInvalidAmount
  else None.

(** [v, _ := json.Marshal(...)]: the error is dropped and [v] is nil. *)
Definition marshal_or_nil (v : RawMessage) : option RawMessage :=
  match json_Marshal v with
  | Ok raw => Some raw
  | Err _ => None
  end.

(** Up to three INSERTs, stopping at the first that fails. *)
Definition createTransferAuditLog (env : Env) (transaction : Transaction)
    (oldSourceBalance newSourceBalance
     oldDestinationBalance newDestinationBalance : float64) (w : World)
  : option error * World :=
  let source := Transaction_SourceAccountID transaction in
  let destination := Transaction_DestinationAccountID transaction in
  let sourceOldValue :=
    marshal_or_nil (AccountBalanceSnapshot source oldSourceBalance) in
  let sourceNewValue :=
    marshal_or_nil (AccountBalanceSnapshot source newSourceBalance) in
  let sourceAuditLog :=
    mkAuditLog "" "account" source "debit" sourceOldValue sourceNewValue 0%Z in
  match PostgresAuditRepository.Create env sourceAuditLog w with
  | (Some err, w) =>
      (Some (Errorf "failed to create source account audit log" err), w)
  | (None, w) =>
  let destinationOldValue :=
    marshal_or_nil (AccountBalanceSnapshot destination oldDestinationBalance) in
  let destinationNewValue :=
    marshal_or_nil (AccountBalanceSnapshot destination newDestinationBalance) in
  let destinationAuditLog :=
    mkAuditLog "" "account" destination "credit"
               destinationOldValue destinationNewValue 0%Z in
  match PostgresAuditRepository.Create env destinationAuditLog w with
  | (Some err, w) =>
      (Some (Errorf "failed to create destination account audit log" err), w)
  | (None, w) =>
  let txValue :=
    marshal_or_nil (TransactionSnapshot (Transaction_ID transaction) source
                                        destination
                                        (Transaction_Amount transaction)) in
  let txAuditLog :=
    mkAuditLog "" "transaction" (Transaction_ID transaction) "transfer"
               None txValue 0%Z in
  match PostgresAuditRepository.Create env txAuditLog w with
  | (Some err, w) =>
      (Some (Errorf "failed to create transaction audit log" err), w)
  | (None, w) => (None, w)
  end end end.

(** Lines 66 to 172 of [Transfer]: everything that runs with the
    transaction open, up to and including [tx.Commit]. *)
Definition transfer_in_tx (env : Env) (req : CreateTransactionRequest)
    (w : World) : result Transaction * World :=
  (* Lock and get source account *)
  match PostgresAccountRepository.GetAccountByIDForUpdate
          env (SourceAccountID req) w with
  | (Err err, w) =>
      if IsNotFound err then (Err (Errorf "source account" err), w)
      else (Err (NewTransactionError "get source account" err), w)
  | (Ok sourceAccount, w) =>
  (* Lock and get destination account *)
  match PostgresAccountRepository.GetAccountByIDForUpdate
          env (DestinationAccountID req) w with
  | (Err err, w) =>
      if IsNotFound err then (Err (Errorf "destination account" err), w)
      else (Err (NewTransactionError "get destination account" err), w)
  | (Ok destinationAccount, w) =>
  (* Check for sufficient balance *)
  if PrimFloat.ltb (Account_Balance sourceAccount) (Amount req) then
    (Err ErrInsufficentBalance, w)
  else
  let oldSourceBalance := Account_Balance sourceAccount in
  let oldDestinationBalance := Account_Balance destinationAccount in
  let newSourceBalance :=
    PrimFloat.sub (Account_Balance sourceAccount) (Amount req) in
  let newDestinationBalance :=
    PrimFloat.add (Account_Balance destinationAccount) (Amount req) in
  match PostgresAccountRepository.UpdateAccountBalance
          env (SourceAccountID req) newSourceBalance w with
  | (Some err, w) =>
      (Err (NewTransactionError "update source account balance" err), w)
  | (None, w) =>
  match PostgresAccountRepository.UpdateAccountBalance
          env (DestinationAccountID req) newDestinationBalance w with
  | (Some err, w) =>
      (Err (NewTransactionError "update destination account balance" err), w)
  | (None, w) =>
  let transaction :=
    mkTransaction "" (SourceAccountID req) (DestinationAccountID req)
                  (Amount req) 0%Z in
  match PostgresTransactionRepository.Create env transaction w with
  | (Some err, _, w) =>
      (Err (NewTransactionError "create transaction record" err), w)
  | (None, transaction, w) =>
  (* continue with the tx even if audit logging fails *)
  let '(_, w) :=
    createTransferAuditLog env transaction oldSourceBalance newSourceBalance
                           oldDestinationBalance newDestinationBalance w in
  match tx_Commit env w with
  | (Some err, w) => (Err (NewTransactionError "commit" err), w)
  | (None, w) => (Ok transaction, w)
  end end end end end end.

(** [Transfer]: pre-validation, [BeginTx], the body, and the deferred
    [Rollback], which runs on every error return of the body ([tx] is set
    to nil only after a successful commit). *)
Definition Transfer (env : Env) (req : CreateTransactionRequest) (w : World)
  : result Transaction * World :=
  match validateTransferRequest req with
  | Some err => (Err err, w)
  | None =>
      match db_BeginTx env w with
      | (Err err, w) => (Err (NewTransactionError "begin" err), w)
      | (Ok _, w) =>
          match transfer_in_tx env req w with
          | (Err err, w) => (Err err, tx_Rollback env w)
          | (Ok transaction, w) => (Ok transaction, w)
          end
      end
  end.

End TransactionServiceImpl.

End service.

Import repository service.

(* ================================================================= *)
(** ** Concrete worlds *)

(** A store that never fails, with a running clock. *)
Definition env_ok : Env :=
  mkEnv (λ _, false) (λ n, Z.of_nat n) (λ _, "6f1c0e9a-0000-4000-8000-000000000001").

(** A store whose audit INSERTs all fail and nothing else does. *)
Definition is_audit_insert (s : stmt) : bool :=
  match s with
  | InsertAuditLog _ _ _ _ => true
  | _ => false
  end.


(** A store whose UPDATEs fail. *)
Definition env_update_down : Env :=
  mkEnv (λ s, match s with UpdateBalance _ => true | _ => false end)
        (λ n, Z.of_nat n) (λ _, "6f1c0e9a-0000-4000-8000-000000000001").


(** Scenario 1 of the tests: acc001 holds 1000 and acc002 holds 500. *)
Definition acc001 : Account := mkAccount "acc001" 1000 0%Z 0%Z.
Definition acc002 : Account := mkAccount "acc002" 500 0%Z 0%Z.

Definition world_two_accounts : World :=
  mkWorld (mkTables (<["acc002" := acc002]> (<["acc001" := acc001]> ∅)) [] [])
          None [].

(** 2^53 is the first float64 whose successor integer is not a float64. *)
Definition two_53 : float64 := 9007199254740992.

Definition world_large_balance : World :=
  mkWorld (mkTables (<["vault" := mkAccount "vault" two_53 0%Z 0%Z]>
                       (<["till" := mkAccount "till" 3 0%Z 0%Z]> ∅)) [] [])
          None [].

(** The exact value of a float64 that is an integer. *)
Definition integer_value (x : float64) : option Z :=
  match Prim2SF x with
  | S754_zero _ => Some 0%Z
  | S754_finite s m e =>
      if (0 <=? e)%Z then Some (cond_Zopp s (Z.pos m * 2 ^ e))%Z
      else if (Z.pos m mod 2 ^ (- e) =? 0)%Z
           then Some (cond_Zopp s (Z.pos m / 2 ^ (- e)))%Z
           else None
  | _ => None
  end.

(** What a caller of [Transfer] observes of an error. *)
Definition failed_with {A} (p : error → bool) (r : result A) : bool :=
  match r with
  | Err e => p e
  | Ok _ => false
  end.

(** The statements a call sent: [trace] grows at its end only. *)
Definition sent_by (w w' : World) : list stmt :=
  drop (length (trace w)) (trace w').

(** The rules of the specification, in the order it lists them: each is a
    condition that rejects the request and the error it is rejected
    with. *)
Definition transfer_rules (req : CreateTransactionRequest)
  : list (bool * error) :=
  [ (bool_decide (SourceAccountID req = ""),
     ValidationError "source_account_id" "must be non-empty");
    (bool_decide (DestinationAccountID req = ""),
     ValidationError "destination_account_id" "must be non-empty");
    (bool_decide (SourceAccountID req = DestinationAccountID req),
     ErrSameAccount);
    (PrimFloat.leb (Amount req) 0, ErrInvalidAmount) ].

(** The error of the first rule that is violated, if any. *)
Fixpoint first_violated (rules : list (bool * error)) : option error :=
  match rules with
  | [] => None
  | (violated, err) :: rules =>
      if violated then Some err else first_violated rules
  end.

(* ================================================================= *)
(** ** Error texts and unwrapping *)

Module errors_text.

(** [Unwrap]: the cause of a [TransactionError] and of an error built
    with [%w]; every other error wraps nothing. *)
Definition Unwrap (err : error) : option error :=
  match err with
  | TransactionError _ cause => Some cause
  | Errorf _ cause => Some cause
  | _ => None
  end.

(** [err.Error()].  The texts of errors.go are those of its source; [lib]
    gives the text of the errors that database/sql, the driver and
    encoding/json produce, which the repository does not fix. *)
Fixpoint Error (lib : error → string) (err : error) : string :=
  match err with
  | ErrAccountNotFound => "account not found"
  | ErrAccountAlreadyExists => "account already exists"
  | ErrInsufficentBalance => "insufficient balance"
  | ErrInvalidAmount => "invalid amount"
  | ErrInvalidAccountID => "invalid account ID"
  | ErrSameAccount => "source and destination accounts cannot be the same"
  | ErrNegativeBalance => "balance cannot be negative"
  | ValidationError field message =>
      "validation error on field '" ++ field ++ "': " ++ message
  | TransactionError operation cause =>
      "transaction error during '" ++ operation ++ "': " ++ Error lib cause
  | Errorf prefix cause => prefix ++ ": " ++ Error lib cause
  | _ => lib err
  end.

(** One layer of wrapping, as the services and repositories apply it. *)
Inductive wrapper : Type :=
| WrapTransactionError (operation : string)
| WrapErrorf (prefix : string).

Definition wrap (l : wrapper) (err : error) : error :=
  match l with
  | WrapTransactionError operation => NewTransactionError operation err
  | WrapErrorf prefix => Errorf prefix err
  end.

(** The errors errors.go declares with [errors.New]. *)
Definition is_sentinel (err : error) : bool :=
  match err with
  | ErrAccountNotFound | ErrAccountAlreadyExists | ErrInsufficentBalance
  | ErrInvalidAmount | ErrInvalidAccountID | ErrSameAccount
  | ErrNegativeBalance => true
  | _ => false
  end.

End errors_text.

(* ================================================================= *)
(** ** The read side of the repositories *)

(** The queries below run on the connection and change no table, so they
    are functions of the committed tables; [failed] is the answer of the
    store's oracle for the query. *)
Module queries.

Module PostgresTransactionRepository.


End PostgresTransactionRepository.

Module PostgresAuditRepository.

(** [rows.Scan]: database/sql refuses a destination list that is not as
    long as the row has columns. *)
Definition rows_Scan {A} (columns destinations : nat) (row : A) : result A :=
  if decide (columns = destinations) then Ok row else Err DriverError.

(** The loop [for rows.Next()] of [GetByEntityID]: each row is scanned
    into six destinations ([CreatedAt] is not one of them) and appended;
    the first error ends the loop. *)
Fixpoint scan_audit_logs (rows : list AuditLog) (logs : list AuditLog)
  : result (list AuditLog) :=
  match rows with
  | [] => Ok logs
  | row :: rows =>
      let log :=
        mkAuditLog (AuditLog_ID row) (AuditLog_EntityType row)
                   (AuditLog_EntityID row) (AuditLog_Action row)
                   (AuditLog_OldValue row) (AuditLog_NewValue row) 0%Z in
      match rows_Scan 7 6 log with
      | Err err => Err (Errorf "failed to scan audit log" err)
      | Ok log => scan_audit_logs rows (logs ++ [log])
      end
  end.

(** [PostgresAuditRepository.GetByEntityID]: the query selects seven
    columns of the rows of the entity; [order_by] is the order in which
    the store returns them ([ORDER BY created_at DESC], ties as the store
    pleases) and [rows_err] the outcome of [rows.Err]. *)
Definition GetByEntityID (failed : bool) (order_by : list AuditLog → list AuditLog)
    (rows_err : bool) (entityType entityID : string) (t : Tables)
  : result (list AuditLog) :=
  if failed then Err (Errorf "failed to get audit logs by entity ID" DriverError)
  else
    let rows :=
      order_by (List.filter
                  (λ row, bool_decide (AuditLog_EntityType row = entityType)
                          && bool_decide (AuditLog_EntityID row = entityID))
                  (audit_logs t)) in
    match scan_audit_logs rows [] with
    | Err err => Err err
    | Ok logs =>
        if rows_err then Err (Errorf "error iterating over audit logs" DriverError)
        else Ok logs
    end.

End PostgresAuditRepository.

End queries.

(* ================================================================= *)
(** ** Package utils *)

Module utils.

(** The response structs of models.go that the handlers hand to
    [WriteJSON]. *)
Inductive data : Type :=
| ErrorResponse (Error Message : string)
| AccountResponse (ID : string) (Balance : float64)
| TransactionResponse (ID SourceAccountID DestinationAccountID : string)
                      (Amount : float64) (CreatedAt : Time).

(** An [http.ResponseWriter]: the Content-Type header, the status line
    once written, and the documents encoded into the body. *)
Record ResponseWriter : Type := mkResponseWriter {
  ContentType : option string;
  statusCode : option Z;
  body : list data
}.

Definition NewRecorder : ResponseWriter := mkResponseWriter None None [].

(** [json.NewEncoder(w).Encode]: a NaN or infinite number is an error and
    nothing is written; [WriteJSON] ignores the error. *)
Definition Encode (w : ResponseWriter) (d : data) : ResponseWriter :=
  let encodable :=
    match d with
    | ErrorResponse _ _ => true
    | AccountResponse _ b => negb (PrimFloat.is_nan b || PrimFloat.is_infinity b)
    | TransactionResponse _ _ _ a _ =>
        negb (PrimFloat.is_nan a || PrimFloat.is_infinity a)
    end in
  if encodable then
    mkResponseWriter (ContentType w)
                     (match statusCode w with None => Some 200%Z | s => s end)
                     (body w ++ [d])
  else w.

(** [WriteJSON]: the header and the status count only while no status
    line has been written. *)
Definition WriteJSON (w : ResponseWriter) (status : Z) (d : option data)
  : ResponseWriter :=
  let w :=
    match statusCode w with
    | None => mkResponseWriter (Some "application/json") (Some status) (body w)
    | Some _ => w
    end in
  match d with
  | Some d => Encode w d
  | None => w
  end.

Definition WriteError (w : ResponseWriter) (status : Z)
    (errorMsg details : string) : ResponseWriter :=
  WriteJSON w status (Some (ErrorResponse errorMsg details)).

End utils.

(* ================================================================= *)
(** ** Package handler *)

Module handler.

Import errors_text utils.

(** net/http status codes the handlers use. *)
Definition StatusOK : Z := 200.
Definition StatusCreated : Z := 201.
Definition StatusBadRequest : Z := 400.
Definition StatusNotFound : Z := 404.
Definition StatusConflict : Z := 409.
Definition StatusInternalServerError : Z := 500.

(** The outcome of [json.NewDecoder(r.Body).Decode(&req)]: the request,
    or the text of the decoder's error. *)
Inductive decoded (A : Type) : Type :=
| Decoded (req : A)
| Malformed (message : string).
Arguments Decoded {A} req.
Arguments Malformed {A} message.

Module TransactionHandler.

Definition handleServiceError (lib : error → string) (w : ResponseWriter)
    (err : error) : ResponseWriter :=
  if IsNotFound err then
    WriteError w StatusNotFound "acount not found" (Error lib err)
  else if IsInsufficientBalance err then
    WriteError w StatusBadRequest "insufficient balance"
               "source account does not have enough funds for txn"
  else if IsValidationError err then
    WriteError w StatusBadRequest "validation error" (Error lib err)
  else if decide (err = ErrSameAccount) then
    WriteError w StatusBadRequest "same source and destination account"
               (Error lib err)
  else if decide (err = ErrInvalidAmount) then
    WriteError w StatusBadRequest "invalid amount" (Error lib err)
  else WriteError w StatusInternalServerError "internal server error" "".

Definition CreateTransaction (lib : error → string) (env : Env)
    (w : ResponseWriter) (r_Body : decoded CreateTransactionRequest)
    (world : World) : ResponseWriter * World :=
  match r_Body with
  | Malformed message =>
      (WriteError w StatusBadRequest "invalid request payload" message, world)
  | Decoded req =>
      match TransactionServiceImpl.Transfer env req world with
      | (Err err, world) => (handleServiceError lib w err, world)
      | (Ok transaction, world) =>
          (WriteJSON w StatusCreated
             (Some (TransactionResponse
                      (Transaction_ID transaction)
                      (Transaction_SourceAccountID transaction)
                      (Transaction_DestinationAccountID transaction)
                      (Transaction_Amount transaction)
                      (Transaction_CreatedAt transaction))), world)
      end
  end.

End TransactionHandler.

Module AccountHandler.

Definition handleServiceError (lib : error → string) (w : ResponseWriter)
    (err : error) : ResponseWriter :=
  if IsNotFound err then WriteError w StatusNotFound "account not found" ""
  else if IsAlreadyExists err then
    WriteError w StatusConflict "account already exists" ""
  else if IsValidationError err then
    WriteError w StatusBadRequest "validation error" (Error lib err)
  else if decide (err = ErrInvalidAccountID) then
    WriteError w StatusBadRequest "invalid account ID" ""
  else if decide (err = ErrNegativeBalance) then
    WriteError w StatusBadRequest "negative balance not allowed" ""
  else WriteError w StatusInternalServerError "internal server error" "".

Definition CreateAccount (lib : error → string) (env : Env)
    (w : ResponseWriter) (r_Body : decoded CreateAccountRequest)
    (world : World) : ResponseWriter * World :=
  match r_Body with
  | Malformed message =>
      (WriteError w StatusBadRequest "invalid request payload" message, world)
  | Decoded req =>
      match AccountServiceImpl.CreateAccount env req world with
      | (Err err, world) => (handleServiceError lib w err, world)
      | (Ok account, world) =>
          (WriteJSON w StatusCreated
             (Some (AccountResponse (Account_ID account)
                                    (Account_Balance account))), world)
      end
  end.

(** [accountID] is [mux.Vars(r)["id"]]. *)
Definition GetAccount (lib : error → string) (env : Env)
    (w : ResponseWriter) (accountID : string) (world : World)
  : ResponseWriter * World :=
  if decide (accountID = "") then
    (WriteError w StatusBadRequest "id is required" "", world)
  else
    match AccountServiceImpl.GetAccount env accountID world with
    | (Err err, world) => (handleServiceError lib w err, world)
    | (Ok account, world) =>
        (WriteJSON w StatusOK
           (Some (AccountResponse (Account_ID account)
                                  (Account_Balance account))), world)
    end.

End AccountHandler.

End handler.

(** A store is well keyed when every account row sits under its own id,
    as a primary key has it. *)
Definition well_keyed (t : Tables) : Prop :=
  ∀ id row, accounts t !! id = Some row → Account_ID row = id.

(** No stored balance is negative: the CHECK of the accounts table, read
    with Go's [<]. *)
Definition balances_non_negative (t : Tables) : Prop :=
  ∀ id row, accounts t !! id = Some row →
            PrimFloat.ltb (Account_Balance row) 0 = false.

(** The write statements of a transfer. *)
Definition is_write (s : stmt) : bool :=
  match s with
  | UpdateBalance _ | InsertTransaction _ _ | InsertAuditLog _ _ _ _ => true
  | _ => false
  end.

(** No write is sent before both [a] and [b] are locked. *)
Fixpoint writes_after_locks (a b : string) (held : list string)
    (t : list stmt) : bool :=
  match t with
  | [] => true
  | s :: t =>
      match s with
      | SelectAccountForUpdate id => writes_after_locks a b (id :: held) t
      | _ =>
          (negb (is_write s)
           || (bool_decide (a ∈ held) && bool_decide (b ∈ held)))
          && writes_after_locks a b held t
      end
  end.

(** Every UPDATE of a balance targets a row whose lock was taken earlier
    in the same transaction; [Commit] and [Rollback] release the locks. *)
Fixpoint updates_under_lock (held : list string) (t : list stmt) : bool :=
  match t with
  | [] => true
  | SelectAccountForUpdate id :: t => updates_under_lock (id :: held) t
  | UpdateBalance id :: t =>
      bool_decide (id ∈ held) && updates_under_lock held t
  | Commit :: t | Rollback :: t => updates_under_lock [] t
  | _ :: t => updates_under_lock held t
  end.

(** An audit row without what the store adds (its id and timestamp). *)
Definition audit_view (log : AuditLog)
  : string * string * string * option RawMessage * option RawMessage :=
  (AuditLog_EntityType log, AuditLog_EntityID log, AuditLog_Action log,
   AuditLog_OldValue log, AuditLog_NewValue log).

(** How many of the statements, in order, succeed before one fails. *)
Fixpoint count_until_failure (failed : list bool) : nat :=
  match failed with
  | false :: failed => S (count_until_failure failed)
  | _ => 0
  end.

Definition audit_statements (t : list stmt) : list stmt :=
  List.filter is_audit_insert t.

(** After a statement that fails, audit INSERTs and [Rollback] apart,
    nothing is sent but at most one [Rollback]. *)
Fixpoint stops_at_failure (env : Env) (t : list stmt) : bool :=
  match t with
  | [] => true
  | s :: t =>
      (if fails env s && negb (is_audit_insert s)
          && negb (match s with Rollback => true | _ => false end)
       then match t with
            | [] | [Rollback] => true
            | _ => false
            end
       else true)
      && stops_at_failure env t
  end.

(** The response of a handler that wrote one error document. *)
Definition answer (status : Z) (errorMsg details : string)
  : utils.ResponseWriter :=
  utils.mkResponseWriter (Some "application/json") (Some status)
                         [utils.ErrorResponse errorMsg details].

(** Scenario 1 run to its end, and the transaction it returns. *)
Definition scenario1_request : CreateTransactionRequest :=
  mkCreateTransactionRequest "acc001" "acc002" 250.

Definition scenario1_transaction : Transaction :=
  mkTransaction "6f1c0e9a-0000-4000-8000-000000000001" "acc001" "acc002" 250 7%Z.

Definition world_after_scenario1 : World :=
  (TransactionServiceImpl.Transfer env_ok scenario1_request
     world_two_accounts).2.


(** An audit table with one entry of account acc001. *)
Definition tables_one_audit_entry : Tables :=
  mkTables ∅ []
    [mkAuditLog "a1" EntityTypeAccount "acc001" AuditActionCreate None
                (Some (AccountBalanceSnapshot "acc001" 1000)) 1%Z].

(** A specification float that is not below zero; a NaN is not. *)
Definition SF_not_negative (x : spec_float) : Prop :=
  SFltb x (S754_zero false) = false.

(** A world without the source account of [ghost_request]. *)
Definition ghost_request : CreateTransactionRequest :=
  mkCreateTransactionRequest "ghost" "acc002" 10.

Definition to_ghost_request : CreateTransactionRequest :=
  mkCreateTransactionRequest "acc001" "ghost" 10.

(** A store whose connection is down: every statement fails. *)
Definition env_down : Env :=
  mkEnv (λ _, true) (λ n, Z.of_nat n)
        (λ _, "6f1c0e9a-0000-4000-8000-000000000001").

(** The text of a library error, when one is needed. *)
Definition lib_text (err : error) : string :=
  match err with
  | sql_ErrNoRows => "sql: no rows in result set"
  | sql_ErrTxDone =>
      "sql: transaction has already been committed or rolled back"
  | _ => "pq: connection refused"
  end.

(* ================================================================= *)
(** ** float64 facts *)

Section Float64.

Lemma Prim2SF_zero : Prim2SF 0 = S754_zero false.
Proof. reflexivity. Qed.

Lemma float_ltb_irrefl (x : float64) : PrimFloat.ltb x x = false.
Proof.
  rewrite FloatAxioms.ltb_spec. unfold SFltb.
  destruct (Prim2SF x) as [s|s| |s m e]; simpl; try reflexivity.
  - destruct s; reflexivity.
  - rewrite Z.compare_refl, Pcompare_refl. destruct s; reflexivity.
Qed.

Lemma float_is_nan_spec (x : float64) :
  PrimFloat.is_nan x = match Prim2SF x with S754_nan => true | _ => false end.
Proof.
  unfold PrimFloat.is_nan. rewrite FloatAxioms.eqb_spec. unfold SFeqb.
  destruct (Prim2SF x) as [s|s| |s m e]; simpl; try reflexivity.
  - destruct s; reflexivity.
  - rewrite Z.compare_refl, Pcompare_refl. destruct s; reflexivity.
Qed.

Lemma float_is_infinity_spec (x : float64) :
  PrimFloat.is_infinity x =
  match Prim2SF x with S754_infinity _ => true | _ => false end.
Proof.
  unfold PrimFloat.is_infinity. rewrite FloatAxioms.eqb_spec, abs_spec. unfold SFeqb.
  destruct (Prim2SF x) as [s|s| |s m e]; reflexivity.
Qed.

(** On a number, [amount <= 0] is the negation of [0 < amount]. *)
Lemma float_not_pos_leb (a : float64) :
  PrimFloat.is_nan a = false →
  PrimFloat.ltb 0 a = false → PrimFloat.leb a 0 = true.
Proof.
  rewrite float_is_nan_spec, FloatAxioms.ltb_spec, FloatAxioms.leb_spec, Prim2SF_zero.
  unfold SFltb, SFleb.
  destruct (Prim2SF a) as [s|s| |s m e]; simpl; try done; by destruct s.
Qed.

Lemma float_leb_not_pos (a : float64) :
  PrimFloat.leb a 0 = true → PrimFloat.ltb 0 a = false.
Proof.
  rewrite FloatAxioms.ltb_spec, FloatAxioms.leb_spec, Prim2SF_zero.
  unfold SFltb, SFleb.
  destruct (Prim2SF a) as [s|s| |s m e]; simpl; try done; by destruct s.
Qed.

(** A finite float minus itself is +0. *)
Lemma float_sub_diag (x : float64) :
  PrimFloat.is_finite x = true → PrimFloat.sub x x = 0%float.
Proof.
  unfold PrimFloat.is_finite.
  rewrite float_is_nan_spec, float_is_infinity_spec. intros Hfin.
  apply Prim2SF_inj. rewrite sub_spec, Prim2SF_zero.
  unfold SF64sub, SFsub.
  destruct (Prim2SF x) as [s|s| |s m e]; simpl in Hfin; try done.
  - by destruct s.
  - cbv zeta. rewrite Z.sub_diag. reflexivity.
Qed.

End Float64.

(* ================================================================= *)
(** ** Pre-validation of a transfer *)

Section PreValidation.

Import TransactionServiceImpl.

Lemma validate_first_violated (req : CreateTransactionRequest) :
  validateTransferRequest req = first_violated (transfer_rules req).
Proof.
  unfold validateTransferRequest, transfer_rules, NewValidationError. simpl.
  repeat case_bool_decide; repeat case_decide; done.
Qed.

(** A request that fails pre-validation is answered without the store:
    the world, trace included, is returned as it was received. *)
Lemma Transfer_rejected (env : Env) (req : CreateTransactionRequest)
    (w : World) (e : error) :
  validateTransferRequest req = Some e → Transfer env req w = (Err e, w).
Proof. unfold Transfer. by intros ->. Qed.

Lemma sent_by_refl (w : World) : sent_by w w = [].
Proof. unfold sent_by. apply drop_all. Qed.

(** C10. When a transfer request breaks several pre-validation rules at
    once, [Transfer] returns the error of the first rule broken, in the
    fixed order: empty source_account_id, empty destination_account_id,
    source equal to destination, amount [<= 0].  So a request with both
    identifiers empty fails on source_account_id, and one with equal
    non-empty identifiers and a non-positive amount fails with
    [ErrSameAccount], not [ErrInvalidAmount]. *)
Theorem validation_precedence (env : Env) (req : CreateTransactionRequest)
    (w : World) :
  validateTransferRequest req = first_violated (transfer_rules req)
  ∧ match first_violated (transfer_rules req) with
    | Some e => Transfer env req w = (Err e, w)
    | None => True
    end
  ∧ (Transfer env (mkCreateTransactionRequest "" "" (Amount req)) w).1
    = Err (ValidationError "source_account_id" "must be non-empty")
  ∧ (Transfer env (mkCreateTransactionRequest "acc001" "acc001" 0) w).1
    = Err ErrSameAccount
  ∧ (Transfer env (mkCreateTransactionRequest "acc001" "acc001" (-100)) w).1
    = Err ErrSameAccount.
Proof.
  split; [apply validate_first_violated|].
  split.
  - rewrite <- validate_first_violated.
    destruct (validateTransferRequest req) eqn:E; [|done].
    by apply Transfer_rejected.
  - repeat split; by erewrite Transfer_rejected.
Qed.

(** C5. Pre-validation comes before the unit of work and before any
    statement: an empty source_id or destination_id is refused with a
    [ValidationError], equal identifiers with [ErrSameAccount], and an
    amount that is a number and not greater than zero with
    [ErrInvalidAmount], each time with the world returned untouched (no
    statement sent, no transaction opened, no table changed).  Request
    amounts are decoded from JSON numbers, hence never NaN. *)
Theorem prevalidation_before_storage (env : Env)
    (req : CreateTransactionRequest) (w : World) :
  (SourceAccountID req = "" ∨ DestinationAccountID req = "" →
     ∃ field message,
       Transfer env req w = (Err (ValidationError field message), w))
  ∧ (SourceAccountID req ≠ "" →
     SourceAccountID req = DestinationAccountID req →
     Transfer env req w = (Err ErrSameAccount, w))
  ∧ (SourceAccountID req ≠ "" → DestinationAccountID req ≠ "" →
     SourceAccountID req ≠ DestinationAccountID req →
     PrimFloat.is_nan (Amount req) = false →
     PrimFloat.ltb 0 (Amount req) = false →
     Transfer env req w = (Err ErrInvalidAmount, w))
  ∧ (∀ e, validateTransferRequest req = Some e →
     Transfer env req w = (Err e, w)
     ∧ sent_by w (Transfer env req w).2 = []
     ∧ session (Transfer env req w).2 = session w
     ∧ committed (Transfer env req w).2 = committed w).
Proof.
  repeat split.
  - intros H. unfold Transfer, validateTransferRequest, NewValidationError.
    destruct H as [H|H]; repeat case_decide; try done; eauto.
  - intros Hs Heq. apply Transfer_rejected.
    unfold validateTransferRequest. repeat case_decide; congruence.
  - intros Hs Hd Hne Hnan Hpos. apply Transfer_rejected.
    unfold validateTransferRequest. repeat case_decide; try congruence.
    by rewrite float_not_pos_leb.
  - by apply Transfer_rejected.
  - erewrite Transfer_rejected by eassumption. apply sent_by_refl.
  - by erewrite Transfer_rejected by eassumption.
  - by erewrite Transfer_rejected by eassumption.
Qed.

Lemma prevalidation_before_storage_witness :
  (∃ field message,
     Transfer env_ok (mkCreateTransactionRequest "" "acc002" 100)
              world_two_accounts
     = (Err (ValidationError field message), world_two_accounts))
  ∧ Transfer env_ok (mkCreateTransactionRequest "acc001" "acc001" 100)
             world_two_accounts
    = (Err ErrSameAccount, world_two_accounts)
  ∧ Transfer env_ok (mkCreateTransactionRequest "acc001" "acc002" 0)
             world_two_accounts
    = (Err ErrInvalidAmount, world_two_accounts)
  ∧ sent_by world_two_accounts
      (Transfer env_ok (mkCreateTransactionRequest "acc001" "acc002" (-5))
                world_two_accounts).2
    = [].
Proof.
  split; [|split; [|split]].
  - apply (proj1 (prevalidation_before_storage env_ok
                    (mkCreateTransactionRequest "" "acc002" 100)
                    world_two_accounts)).
    left. reflexivity.
  - apply (proj1 (proj2 (prevalidation_before_storage env_ok
                           (mkCreateTransactionRequest "acc001" "acc001" 100)
                           world_two_accounts)));
      first [discriminate | reflexivity].
  - apply (proj1 (proj2 (proj2 (prevalidation_before_storage env_ok
                                  (mkCreateTransactionRequest "acc001" "acc002" 0)
                                  world_two_accounts))));
      first [discriminate | reflexivity].
  - apply (proj2 (proj2 (proj2 (prevalidation_before_storage env_ok
                                  (mkCreateTransactionRequest "acc001" "acc002" (-5))
                                  world_two_accounts))) ErrInvalidAmount).
    reflexivity.
Defined.

End PreValidation.

(* ================================================================= *)
(** ** The account manager *)

Section AccountManager.

Import PostgresAccountRepository AccountServiceImpl.







(** C8. [GetAccount] refuses the empty id with [ErrInvalidAccountID]
    without reaching the store; when the query is answered it fails with
    [ErrAccountNotFound] if no row has that id and otherwise returns the
    stored row, id and current balance included, and changes no table. *)
Theorem GetAccount_spec (env : Env) (id : string) (w : World) :
  (id = "" → GetAccount env id w = (Err ErrInvalidAccountID, w))
  ∧ (id ≠ "" → fails env (SelectAccount id) = false →
     match accounts (committed w) !! id with
     | None => (GetAccount env id w).1 = Err ErrAccountNotFound
     | Some account => (GetAccount env id w).1 = Ok account
     end
     ∧ committed (GetAccount env id w).2 = committed w).
Proof.
  split.
  - intros ->. reflexivity.
  - intros Hid Hf. unfold GetAccount, GetAccountByID, send.
    case_decide; [done|]. simpl. rewrite Hf.
    by destruct (accounts (committed w) !! id).
Qed.

Lemma GetAccount_spec_witness :
  (GetAccount env_ok "acc002" world_two_accounts).1 = Ok acc002
  ∧ committed (GetAccount env_ok "acc002" world_two_accounts).2
    = committed world_two_accounts.
Proof.
  apply (GetAccount_spec env_ok "acc002" world_two_accounts);
    [discriminate | reflexivity].
Defined.

End AccountManager.

(* ================================================================= *)
(** ** The transfer engine *)

Section TransferEngine.

Import PostgresAccountRepository TransactionServiceImpl.

Lemma sent_by_app (w w' : World) (evs : list stmt) :
  trace w' = (trace w ++ evs)%list → sent_by w w' = evs.
Proof. unfold sent_by. intros ->. apply drop_app_length. Qed.

Ltac unfold_transfer :=
  unfold Transfer, transfer_in_tx, db_BeginTx, tx_Commit, tx_Rollback,
    createTransferAuditLog, GetAccountByIDForUpdate, UpdateAccountBalance,
    PostgresTransactionRepository.Create, PostgresAuditRepository.Create,
    send, NewTransactionError in *.

(** Splits on every remaining branch of the code. *)
Ltac branches := repeat (case_match; simplify_eq/=).

Lemma validateTransferRequest_None (req : CreateTransactionRequest) :
  validateTransferRequest req = None →
  SourceAccountID req ≠ "" ∧ DestinationAccountID req ≠ ""
  ∧ SourceAccountID req ≠ DestinationAccountID req
  ∧ PrimFloat.leb (Amount req) 0 = false.
Proof.
  unfold validateTransferRequest. repeat case_decide; try done.
  by destruct (PrimFloat.leb (Amount req) 0).
Qed.

(** The path to a commit: with both rows present, enough balance and no
    failure outside the audit INSERTs, [Transfer] commits the two new
    balances and the transaction record, whatever the audit INSERTs do. *)
Lemma Transfer_commits (env : Env) (req : CreateTransactionRequest) (w : World)
    (sourceAccount destinationAccount : Account) :
  validateTransferRequest req = None →
  (∀ s, is_audit_insert s = false → fails env s = false) →
  accounts (committed w) !! SourceAccountID req = Some sourceAccount →
  accounts (committed w) !! DestinationAccountID req = Some destinationAccount →
  PrimFloat.ltb (Account_Balance sourceAccount) (Amount req) = false →
  ∃ transaction w',
    Transfer env req w = (Ok transaction, w')
    ∧ Transaction_SourceAccountID transaction = SourceAccountID req
    ∧ Transaction_DestinationAccountID transaction = DestinationAccountID req
    ∧ Transaction_Amount transaction = Amount req
    ∧ transactions (committed w')
      = (transactions (committed w) ++ [transaction])%list
    ∧ Account_Balance <$> (accounts (committed w') !! SourceAccountID req)
      = Some (PrimFloat.sub (Account_Balance sourceAccount) (Amount req))
    ∧ Account_Balance <$> (accounts (committed w') !! DestinationAccountID req)
      = Some (PrimFloat.add (Account_Balance destinationAccount) (Amount req))
    ∧ (∀ id, id ≠ SourceAccountID req → id ≠ DestinationAccountID req →
         accounts (committed w') !! id = accounts (committed w) !! id).
Proof.
  intros Hv Hf Hs Hd Hlt.
  destruct (validateTransferRequest_None req Hv) as (_ & _ & Hne & _).
  unfold_transfer. rewrite Hv. simpl.
  rewrite (Hf BeginTx) by reflexivity. simpl.
  rewrite (Hf (SelectAccountForUpdate _)) by reflexivity. rewrite Hs. simpl.
  rewrite (Hf (SelectAccountForUpdate _)) by reflexivity. rewrite Hd. simpl.
  rewrite Hlt.
  rewrite (Hf (UpdateBalance _)) by reflexivity. rewrite Hs. simpl.
  rewrite (Hf (RowsAffected _)) by reflexivity. simpl.
  rewrite (Hf (UpdateBalance _)) by reflexivity.
  rewrite lookup_insert_ne by done. rewrite Hd. simpl.
  rewrite (Hf (RowsAffected _)) by reflexivity. simpl.
  rewrite (Hf (InsertTransaction _ _)) by reflexivity. simpl.
  branches; rewrite ?(Hf Commit) in * by reflexivity; simplify_eq/=.
  all: do 2 eexists; split; [reflexivity|]; simpl.
  all: repeat split; try done.
  all: try (rewrite lookup_insert_ne by done; by rewrite lookup_insert_eq).
  all: try (by rewrite lookup_insert_eq).
  all: intros; by rewrite !lookup_insert_ne by done.
Qed.

(** C4. For every call that passes pre-validation, opens its unit of
    work and reads both account rows, [Transfer] fails with
    [ErrInsufficentBalance] if and only if the source balance is strictly
    less than the amount, and in that case the committed tables, both
    balances included, are as they were. *)
Theorem insufficient_balance_iff (env : Env) (req : CreateTransactionRequest)
    (w : World) (sourceAccount destinationAccount : Account) :
  validateTransferRequest req = None →
  fails env BeginTx = false →
  fails env (SelectAccountForUpdate (SourceAccountID req)) = false →
  fails env (SelectAccountForUpdate (DestinationAccountID req)) = false →
  accounts (committed w) !! SourceAccountID req = Some sourceAccount →
  accounts (committed w) !! DestinationAccountID req = Some destinationAccount →
  (failed_with IsInsufficientBalance (Transfer env req w).1 = true
   ↔ PrimFloat.ltb (Account_Balance sourceAccount) (Amount req) = true)
  ∧ (PrimFloat.ltb (Account_Balance sourceAccount) (Amount req) = true →
     (Transfer env req w).1 = Err ErrInsufficentBalance
     ∧ committed (Transfer env req w).2 = committed w).
Proof.
  intros Hv Hb Hfs Hfd Hs Hd.
  unfold_transfer. rewrite Hv. simpl. rewrite Hb. simpl.
  rewrite Hfs, Hs. simpl. rewrite Hfd, Hd. simpl.
  destruct (PrimFloat.ltb (Account_Balance sourceAccount) (Amount req)) eqn:Hlt.
  - simpl. done.
  - split; [|done]. split; [|done].
    branches; done.
Qed.

(** C1, as the code has it.  For every call that passes pre-validation
    and opens its unit of work, the locking reads are sent in request
    order: the source row first and the destination row second, whatever
    the lexicographic order of the two identifiers; the destination is
    locked only once the source row has been read. *)
Theorem transfer_locks_in_request_order (env : Env)
    (req : CreateTransactionRequest) (w : World) :
  validateTransferRequest req = None →
  fails env BeginTx = false →
  locks (sent_by w (Transfer env req w).2)
  = if fails env (SelectAccountForUpdate (SourceAccountID req)) then
      [SourceAccountID req]
    else match accounts (committed w) !! SourceAccountID req with
         | None => [SourceAccountID req]
         | Some _ => [SourceAccountID req; DestinationAccountID req]
         end.
Proof.
  intros Hv Hb. unfold_transfer. rewrite Hv. simpl. rewrite Hb. simpl.
  branches;
    (erewrite sent_by_app; [|simpl; rewrite <- ?app_assoc; reflexivity]);
    simpl; reflexivity.
Qed.

Lemma transfer_locks_in_request_order_witness :
  locks (sent_by world_two_accounts
           (Transfer env_ok (mkCreateTransactionRequest "acc002" "acc001" 250)
                     world_two_accounts).2)
  = ["acc002"; "acc001"].
Proof.
  apply (transfer_locks_in_request_order env_ok
           (mkCreateTransactionRequest "acc002" "acc001" 250)
           world_two_accounts); reflexivity.
Defined.

(** C1, as stated, fails: the transfer acc002 -> acc001 passes
    pre-validation and locks acc002 before acc001, the lexicographically
    greater identifier before the lesser one. *)
Lemma transfer_locks_not_lexicographic :
  let req := mkCreateTransactionRequest "acc002" "acc001" 250 in
  let w' := (Transfer env_ok req world_two_accounts).2 in
  validateTransferRequest req = None
  ∧ locks (sent_by world_two_accounts w') = ["acc002"; "acc001"]
  ∧ String.ltb "acc001" "acc002" = true
  ∧ lex_ordered (locks (sent_by world_two_accounts w')) = false.
Proof. vm_compute. repeat split. Qed.

(** C2 at till -> vault, amount 1, with 3 in the till and 2^53 in the
    vault.  The transfer succeeds and records amount 1; the till goes
    down to 2, but the vault stays at 2^53, since 2^53 + 1 rounds back to
    2^53 in float64: the credit is lost.  The two balances add up to
    2^53 + 3 before and to 2^53 + 2 after, and the float64 sums differ
    as well. *)
Theorem transfer_float64_credit_lost :
  let req := mkCreateTransactionRequest "till" "vault" 1 in
  let r := Transfer env_ok req world_large_balance in
  let balance w id := Account_Balance <$> (accounts (committed w) !! id) in
  let exact w id := balance w id ≫= integer_value in
  (∃ transaction, r.1 = Ok transaction ∧ Transaction_Amount transaction = 1%float)
  ∧ balance r.2 "till" = Some 2%float
  ∧ balance r.2 "vault" = Some two_53
  ∧ balance r.2 "vault" = balance world_large_balance "vault"
  ∧ exact world_large_balance "till" = Some 3%Z
  ∧ exact world_large_balance "vault" = Some (2 ^ 53)%Z
  ∧ exact r.2 "till" = Some 2%Z
  ∧ exact r.2 "vault" = Some (2 ^ 53)%Z
  ∧ PrimFloat.eqb (PrimFloat.add 2 two_53) (PrimFloat.add 3 two_53) = false.
Proof.
  vm_compute. split; [eexists; split; reflexivity|]. repeat split.
Qed.

(** C3. Every call of [Transfer] that returns an error, whichever it is
    (pre-validation, a missing row, insufficient balance, a failing
    statement or a failing commit), leaves the committed tables as they
    were: no balance, no transaction record and no audit entry changes. *)
Theorem transfer_error_atomic (env : Env) (req : CreateTransactionRequest)
    (w w' : World) (e : error) :
  Transfer env req w = (Err e, w') → committed w' = committed w.
Proof.
  unfold_transfer. intros H. branches; done.
Qed.

Lemma transfer_error_atomic_witness :
  committed (Transfer env_update_down
               (mkCreateTransactionRequest "acc001" "acc002" 250)
               world_two_accounts).2
  = committed world_two_accounts.
Proof.
  apply (transfer_error_atomic env_update_down
           (mkCreateTransactionRequest "acc001" "acc002" 250)
           world_two_accounts _
           (TransactionError "update source account balance"
              (Errorf "failed to update account balance" DriverError))).
  vm_compute. reflexivity.
Defined.

Lemma insufficient_balance_iff_witness :
  (Transfer env_ok (mkCreateTransactionRequest "acc001" "acc002" 10000)
            world_two_accounts).1
  = Err ErrInsufficentBalance
  ∧ committed (Transfer env_ok
                 (mkCreateTransactionRequest "acc001" "acc002" 10000)
                 world_two_accounts).2
    = committed world_two_accounts.
Proof.
  apply (insufficient_balance_iff env_ok
           (mkCreateTransactionRequest "acc001" "acc002" 10000)
           world_two_accounts acc001 acc002); reflexivity.
Defined.

(** C9. The balance check is strict.  For every call that passes
    pre-validation, finds both rows and meets no failing statement (audit
    INSERTs apart), with the source balance a finite number as every
    stored DECIMAL is: an amount equal to the source balance is
    transferred and leaves the source balance exactly 0; and any amount
    the source balance is not strictly less than is transferred, so only
    a strictly smaller balance is rejected. *)
Theorem transfer_whole_balance (env : Env) (req : CreateTransactionRequest)
    (w : World) (sourceAccount destinationAccount : Account) :
  validateTransferRequest req = None →
  (∀ s, is_audit_insert s = false → fails env s = false) →
  accounts (committed w) !! SourceAccountID req = Some sourceAccount →
  accounts (committed w) !! DestinationAccountID req = Some destinationAccount →
  PrimFloat.is_finite (Account_Balance sourceAccount) = true →
  (Amount req = Account_Balance sourceAccount →
   ∃ transaction w',
     Transfer env req w = (Ok transaction, w')
     ∧ Account_Balance <$> (accounts (committed w') !! SourceAccountID req)
       = Some 0%float)
  ∧ (PrimFloat.ltb (Account_Balance sourceAccount) (Amount req) = false →
     ∃ transaction w', Transfer env req w = (Ok transaction, w')).
Proof.
  intros Hv Hf Hs Hd Hfin. split.
  - intros Heq.
    destruct (Transfer_commits env req w _ _ Hv Hf Hs Hd)
      as (transaction & w' & Hr & _ & _ & _ & _ & Hbal & _).
    { rewrite Heq. apply float_ltb_irrefl. }
    exists transaction, w'. split; [done|].
    rewrite Hbal, Heq. by rewrite float_sub_diag.
  - intros Hlt.
    destruct (Transfer_commits env req w _ _ Hv Hf Hs Hd Hlt)
      as (transaction & w' & Hr & _).
    eauto.
Qed.

Lemma transfer_whole_balance_witness :
  ∃ transaction w',
    Transfer env_ok (mkCreateTransactionRequest "acc001" "acc002" 1000)
             world_two_accounts
    = (Ok transaction, w')
    ∧ Account_Balance <$> (accounts (committed w') !! "acc001") = Some 0%float.
Proof.
  apply (transfer_whole_balance env_ok
           (mkCreateTransactionRequest "acc001" "acc002" 1000)
           world_two_accounts acc001 acc002); reflexivity.
Defined.



End TransferEngine.

(* ================================================================= *)
(** ** Signs of float64 sums and differences *)

Section Float64Sign.

Local Open Scope Z_scope.

Lemma binary_round_not_negative (m : positive) (e : Z) :
  SF_not_negative (binary_round prec emax false m e).
Proof.
  unfold SF_not_negative, binary_round, binary_round_aux.
  destruct (shl_align _ _ _) as [mz ez].
  destruct (shr_fexp _ _ _ _ _) as [mrs' e'].
  destruct (shr_fexp _ _ _ _ _) as [mrs'' e''].
  destruct (shr_m mrs''); [reflexivity| |reflexivity].
  by destruct (_ <=? _).
Qed.

Lemma binary_normalize_not_negative (m e : Z) :
  0 ≤ m → SF_not_negative (binary_normalize prec emax m e false).
Proof.
  destruct m as [|m|m]; intros Hm; simpl.
  - reflexivity.
  - apply binary_round_not_negative.
  - lia.
Qed.

Lemma iter_xO_value (m d : positive) :
  Z.pos (Pos.iter xO m d) = Z.pos m * 2 ^ Z.pos d.
Proof.
  induction d as [|d IH] using Pos.peano_ind.
  - simpl. lia.
  - rewrite Pos.iter_succ, (Pos2Z.inj_xO (Pos.iter xO m d)), IH,
      Pos2Z.inj_succ, Z.pow_succ_r by lia.
    lia.
Qed.

(** Aligning a mantissa to a smaller exponent keeps the value. *)
Lemma shl_align_value (m : positive) (e e' : Z) :
  e' ≤ e → Z.pos (shl_align m e e').1 = Z.pos m * 2 ^ (e - e').
Proof.
  intros He. unfold shl_align.
  destruct (e' - e) as [|d|d] eqn:Hd; simpl.
  - replace (e - e') with 0 by lia. lia.
  - lia.
  - rewrite iter_xO_value. f_equal. f_equal. lia.
Qed.

Lemma digits2_pos_bounds (m : positive) :
  2 ^ (Z.pos (digits2_pos m) - 1) ≤ Z.pos m < 2 ^ Z.pos (digits2_pos m).
Proof.
  induction m as [m IH|m IH|]; simpl digits2_pos.
  - rewrite Pos2Z.inj_succ, (Pos2Z.inj_xI m).
    replace (Z.succ (Z.pos (digits2_pos m)) - 1)
      with (Z.succ (Z.pos (digits2_pos m) - 1)) by lia.
    rewrite !Z.pow_succ_r by lia.
    generalize dependent (2 ^ (Z.pos (digits2_pos m) - 1)).
    generalize dependent (2 ^ Z.pos (digits2_pos m)). intros; lia.
  - rewrite Pos2Z.inj_succ, (Pos2Z.inj_xO m).
    replace (Z.succ (Z.pos (digits2_pos m)) - 1)
      with (Z.succ (Z.pos (digits2_pos m) - 1)) by lia.
    rewrite !Z.pow_succ_r by lia.
    generalize dependent (2 ^ (Z.pos (digits2_pos m) - 1)).
    generalize dependent (2 ^ Z.pos (digits2_pos m)). intros; lia.
  - simpl. lia.
Qed.

(** What [valid_binary] says of a finite float64: at most 53 digits, and
    exactly 53 above the least exponent. *)
Lemma bounded_digits (m : positive) (e : Z) :
  bounded prec emax m e = true →
  -1074 ≤ e ∧ Z.pos m < 2 ^ 53 ∧ (-1074 < e → 2 ^ 52 ≤ Z.pos m).
Proof.
  unfold bounded, canonical_mantissa, fexp, emin, prec, emax.
  intros H. apply andb_prop in H as [H _]. apply Z.eqb_eq in H.
  pose proof (digits2_pos_bounds m) as [Hlo Hhi].
  assert (Z.pos (digits2_pos m) ≤ 53) as Hd by lia.
  split; [lia|]. split.
  - eapply Z.lt_le_trans; [exact Hhi|]. apply Z.pow_le_mono_r; lia.
  - intros He. assert (Z.pos (digits2_pos m) = 53) as Hd' by lia.
    rewrite Hd' in Hlo. exact Hlo.
Qed.

(** A balance that is not less than a positive amount stays non-negative
    when the amount is taken off it, rounding included. *)
Lemma float_sub_not_negative (s a : float64) :
  PrimFloat.ltb s a = false → PrimFloat.leb a 0 = false →
  PrimFloat.ltb (PrimFloat.sub s a) 0 = false.
Proof.
  rewrite !FloatAxioms.ltb_spec, FloatAxioms.leb_spec, sub_spec, Prim2SF_zero.
  pose proof (Prim2SF_valid s) as Hvs. pose proof (Prim2SF_valid a) as Hva.
  unfold SF64sub, SFsub, SFltb, SFleb.
  destruct (Prim2SF s) as [ss|ss| |ss ms es], (Prim2SF a) as [sa|sa| |sa ma ea];
    simpl; try (by repeat case_match).
  intros Hlt Ha.
  destruct sa; [done|]. destruct ss; [done|].
  simpl in Hvs, Hva.
  apply bounded_digits in Hvs as (Hes & Hms & Hs52).
  apply bounded_digits in Hva as (Hea & Hma & _).
  apply (binary_normalize_not_negative _ _).
  unfold cond_Zopp.
  rewrite !shl_align_value by lia.
  destruct (es ?= ea) eqn:Hc; [| done |].
  - apply Z.compare_eq in Hc. subst ea.
    rewrite Z.min_id, Z.sub_diag. simpl.
    assert ((ms ?= ma)%positive ≠ Lt) as Hm.
    { unfold Pos.compare. by destruct (Pos.compare_cont Eq ms ma). }
    apply Pos.compare_ge_iff in Hm. lia.
  - apply Z.compare_gt_iff in Hc.
    rewrite Z.min_r by lia. rewrite Z.sub_diag. simpl (2 ^ 0).
    assert (2 ^ 1 ≤ 2 ^ (es - ea)) by (apply Z.pow_le_mono_r; lia).
    specialize (Hs52 ltac:(lia)). nia.
Qed.

Lemma float_add_not_negative (d a : float64) :
  PrimFloat.ltb d 0 = false → PrimFloat.leb a 0 = false →
  PrimFloat.ltb (PrimFloat.add d a) 0 = false.
Proof.
  rewrite !FloatAxioms.ltb_spec, FloatAxioms.leb_spec, add_spec, Prim2SF_zero.
  unfold SF64add, SFadd, SFltb, SFleb.
  destruct (Prim2SF d) as [sd|sd| |sd md ed], (Prim2SF a) as [sa|sa| |sa ma ea];
    simpl; try (by repeat case_match).
  intros Hd Ha.
  destruct sa; [done|]. destruct sd; [done|].
  apply (binary_normalize_not_negative _ _).
  unfold cond_Zopp. lia.
Qed.

End Float64Sign.

(* ================================================================= *)
(** ** What a call did: the outcomes of the two services *)

(** Unfolds the transfer engine, or the account manager, down to the
    statements sent; [branches] then splits on every branch of the code. *)
Ltac unfold_transfer :=
  unfold TransactionServiceImpl.Transfer, TransactionServiceImpl.transfer_in_tx,
    db_BeginTx, tx_Commit, tx_Rollback,
    TransactionServiceImpl.createTransferAuditLog,
    PostgresAccountRepository.GetAccountByIDForUpdate,
    PostgresAccountRepository.UpdateAccountBalance,
    PostgresTransactionRepository.Create, PostgresAuditRepository.Create,
    send, NewTransactionError in *.

Ltac unfold_accounts :=
  unfold AccountServiceImpl.CreateAccount, AccountServiceImpl.GetAccount,
    AccountServiceImpl.validateCreateRequest,
    AccountServiceImpl.createAccoutAuditLog,
    PostgresAccountRepository.CreateAccount,
    PostgresAccountRepository.GetAccountByID,
    PostgresAccountRepository.AccountExists,
    PostgresAuditRepository.CreateWithDB, PostgresAuditRepository.audit_row,
    send in *.

Ltac branches := repeat (case_match; simplify_eq/=).

Section Outcomes.

Import PostgresAccountRepository TransactionServiceImpl.

(** The two outcomes of [Transfer]: an error that committed nothing, or a
    transaction together with everything that was committed. *)
Lemma Transfer_outcome (env : Env) (req : CreateTransactionRequest) (w : World) :
  match Transfer env req w with
  | (Err _, w') => committed w' = committed w
  | (Ok transaction, w') =>
      validateTransferRequest req = None
      ∧ ∃ sourceAccount destinationAccount updatedSource updatedDestination,
          accounts (committed w) !! SourceAccountID req = Some sourceAccount
          ∧ accounts (committed w) !! DestinationAccountID req
            = Some destinationAccount
          ∧ PrimFloat.ltb (Account_Balance sourceAccount) (Amount req) = false
          ∧ accounts (committed w')
            = <[DestinationAccountID req :=
                  mkAccount (Account_ID destinationAccount)
                    (PrimFloat.add (Account_Balance destinationAccount)
                                   (Amount req))
                    (Account_CreatedAt destinationAccount) updatedDestination]>
                (<[SourceAccountID req :=
                     mkAccount (Account_ID sourceAccount)
                       (PrimFloat.sub (Account_Balance sourceAccount)
                                      (Amount req))
                       (Account_CreatedAt sourceAccount) updatedSource]>
                   (accounts (committed w)))
          ∧ transactions (committed w')
            = (transactions (committed w) ++ [transaction])%list
          ∧ Transaction_SourceAccountID transaction = SourceAccountID req
          ∧ Transaction_DestinationAccountID transaction
            = DestinationAccountID req
          ∧ Transaction_Amount transaction = Amount req
          ∧ session w' = None
  end.
Proof.
  destruct (validateTransferRequest req) as [e|] eqn:Hv.
  { unfold Transfer. by rewrite Hv. }
  destruct (validateTransferRequest_None req Hv) as (_ & _ & Hne & _).
  unfold_transfer. rewrite Hv.
  branches; try done.
  all: split; [done|].
  all: rewrite lookup_insert_ne in * by done.
  all: simplify_eq.
  all: do 4 eexists; repeat split; try eassumption; try reflexivity.
Qed.

Lemma CreateAccount_outcome (env : Env) (req : CreateAccountRequest) (w : World) :
  match AccountServiceImpl.CreateAccount env req w with
  | (Err _, w') => committed w' = committed w ∧ session w' = session w
  | (Ok account, w') =>
      CreateAccountRequest_ID req ≠ ""
      ∧ PrimFloat.ltb (CreateAccountRequest_InitialBalance req) 0 = false
      ∧ accounts (committed w) !! CreateAccountRequest_ID req = None
      ∧ account = mkAccount (CreateAccountRequest_ID req)
                            (CreateAccountRequest_InitialBalance req)
                            (now env w) (now env w)
      ∧ accounts (committed w')
        = <[CreateAccountRequest_ID req := account]> (accounts (committed w))
      ∧ transactions (committed w') = transactions (committed w)
      ∧ session w' = session w
  end.
Proof.
  unfold_accounts. branches; done.
Qed.

Lemma two_accounts_non_negative :
  balances_non_negative (committed world_two_accounts).
Proof.
  intros id row H. simpl in H.
  apply lookup_insert_Some in H as [[_ <-]|[_ H]]; [reflexivity|].
  apply lookup_insert_Some in H as [[_ <-]|[_ H]]; [reflexivity|].
  by rewrite lookup_empty in H.
Qed.

Lemma two_accounts_well_keyed : well_keyed (committed world_two_accounts).
Proof.
  intros id row H. simpl in H.
  apply lookup_insert_Some in H as [[<- <-]|[_ H]]; [reflexivity|].
  apply lookup_insert_Some in H as [[<- <-]|[_ H]]; [reflexivity|].
  by rewrite lookup_empty in H.
Qed.

Lemma Transfer_source_missing (env : Env) (req : CreateTransactionRequest)
    (w : World) :
  validateTransferRequest req = None →
  fails env BeginTx = false →
  fails env (SelectAccountForUpdate (SourceAccountID req)) = false →
  accounts (committed w) !! SourceAccountID req = None →
  (Transfer env req w).1 = Err (Errorf "source account" ErrAccountNotFound).
Proof.
  intros Hv Hb Hf Hnone. unfold_transfer.
  rewrite Hv. simpl. rewrite Hb. simpl. by rewrite Hf, Hnone.
Qed.

Lemma Transfer_destination_missing (env : Env) (req : CreateTransactionRequest)
    (w : World) (sourceAccount : Account) :
  validateTransferRequest req = None →
  fails env BeginTx = false →
  fails env (SelectAccountForUpdate (SourceAccountID req)) = false →
  fails env (SelectAccountForUpdate (DestinationAccountID req)) = false →
  accounts (committed w) !! SourceAccountID req = Some sourceAccount →
  accounts (committed w) !! DestinationAccountID req = None →
  (Transfer env req w).1 = Err (Errorf "destination account" ErrAccountNotFound).
Proof.
  intros Hv Hb Hfs Hfd Hs Hnone. unfold_transfer.
  rewrite Hv. simpl. rewrite Hb. simpl. rewrite Hfs, Hs. simpl.
  by rewrite Hfd, Hnone.
Qed.

Lemma Transfer_insufficient (env : Env) (req : CreateTransactionRequest)
    (w : World) (sourceAccount destinationAccount : Account) :
  validateTransferRequest req = None →
  fails env BeginTx = false →
  fails env (SelectAccountForUpdate (SourceAccountID req)) = false →
  fails env (SelectAccountForUpdate (DestinationAccountID req)) = false →
  accounts (committed w) !! SourceAccountID req = Some sourceAccount →
  accounts (committed w) !! DestinationAccountID req = Some destinationAccount →
  PrimFloat.ltb (Account_Balance sourceAccount) (Amount req) = true →
  (Transfer env req w).1 = Err ErrInsufficentBalance.
Proof.
  intros Hv Hb Hfs Hfd Hs Hd Hlt. unfold_transfer.
  rewrite Hv. simpl. rewrite Hb. simpl. rewrite Hfs, Hs. simpl.
  rewrite Hfd, Hd. simpl. by rewrite Hlt.
Qed.

Lemma Transfer_begin_fails (env : Env) (req : CreateTransactionRequest)
    (w : World) :
  validateTransferRequest req = None →
  fails env BeginTx = true →
  Transfer env req w
  = (Err (TransactionError "begin" DriverError),
     mkWorld (committed w) (session w) (trace w ++ [BeginTx])).
Proof.
  intros Hv Hb. unfold_transfer. rewrite Hv. simpl. by rewrite Hb.
Qed.

End Outcomes.

(* ================================================================= *)
(** ** The transfer protocol, statement by statement *)

Section TransferProtocol.

Import PostgresAccountRepository TransactionServiceImpl.

(** X1. A transfer whose source row is missing fails with
    [ErrAccountNotFound] wrapped as "source account: ...", which
    [IsNotFound] recognises; the destination row is never locked, the
    transaction is rolled back and nothing is committed. *)
Theorem transfer_source_not_found (env : Env) (req : CreateTransactionRequest)
    (w : World) :
  validateTransferRequest req = None →
  fails env BeginTx = false →
  fails env (SelectAccountForUpdate (SourceAccountID req)) = false →
  accounts (committed w) !! SourceAccountID req = None →
  (Transfer env req w).1 = Err (Errorf "source account" ErrAccountNotFound)
  ∧ failed_with IsNotFound (Transfer env req w).1 = true
  ∧ sent_by w (Transfer env req w).2
    = [BeginTx; SelectAccountForUpdate (SourceAccountID req); Rollback]
  ∧ committed (Transfer env req w).2 = committed w
  ∧ session (Transfer env req w).2 = None.
Proof.
  intros Hv Hb Hf Hnone. unfold_transfer.
  rewrite Hv. simpl. rewrite Hb. simpl. rewrite Hf, Hnone. simpl.
  repeat split.
  erewrite sent_by_app; [reflexivity|]. simpl. by rewrite <- !app_assoc.
Qed.

Lemma transfer_source_not_found_witness :
  (Transfer env_ok ghost_request world_two_accounts).1
  = Err (Errorf "source account" ErrAccountNotFound)
  ∧ sent_by world_two_accounts
      (Transfer env_ok ghost_request world_two_accounts).2
    = [BeginTx; SelectAccountForUpdate "ghost"; Rollback].
Proof.
  destruct (transfer_source_not_found env_ok ghost_request world_two_accounts)
    as (H1 & _ & H3 & _); try reflexivity.
  split; [exact H1 | exact H3].
Defined.

(** X2. A transfer whose source row exists and whose destination row is
    missing fails with [ErrAccountNotFound] wrapped as "destination
    account: ..."; both locking reads were sent, no write was, and the
    transaction is rolled back with nothing committed. *)
Theorem transfer_destination_not_found (env : Env)
    (req : CreateTransactionRequest) (w : World) (sourceAccount : Account) :
  validateTransferRequest req = None →
  fails env BeginTx = false →
  fails env (SelectAccountForUpdate (SourceAccountID req)) = false →
  fails env (SelectAccountForUpdate (DestinationAccountID req)) = false →
  accounts (committed w) !! SourceAccountID req = Some sourceAccount →
  accounts (committed w) !! DestinationAccountID req = None →
  (Transfer env req w).1 = Err (Errorf "destination account" ErrAccountNotFound)
  ∧ failed_with IsNotFound (Transfer env req w).1 = true
  ∧ sent_by w (Transfer env req w).2
    = [BeginTx; SelectAccountForUpdate (SourceAccountID req);
       SelectAccountForUpdate (DestinationAccountID req); Rollback]
  ∧ committed (Transfer env req w).2 = committed w
  ∧ session (Transfer env req w).2 = None.
Proof.
  intros Hv Hb Hfs Hfd Hs Hnone. unfold_transfer.
  rewrite Hv. simpl. rewrite Hb. simpl. rewrite Hfs, Hs. simpl.
  rewrite Hfd, Hnone. simpl.
  repeat split.
  erewrite sent_by_app; [reflexivity|]. simpl. by rewrite <- !app_assoc.
Qed.

Lemma transfer_destination_not_found_witness :
  (Transfer env_ok to_ghost_request world_two_accounts).1
  = Err (Errorf "destination account" ErrAccountNotFound)
  ∧ committed (Transfer env_ok to_ghost_request world_two_accounts).2
    = committed world_two_accounts.
Proof.
  destruct (transfer_destination_not_found env_ok to_ghost_request
              world_two_accounts acc001)
    as (H1 & _ & _ & H4 & _); try reflexivity.
  split; [exact H1 | exact H4].
Defined.



(** X4. Once its transaction is open, [Transfer] never returns with it
    open: the statements it sent are [BeginTx], a body without [BeginTx],
    [Commit] or [Rollback], and one final [Commit] or [Rollback]; it
    returns an error when it ended on [Rollback] and the transaction when
    it ended on a [Commit] that did not fail. *)
Theorem transfer_closes_its_transaction (env : Env)
    (req : CreateTransactionRequest) (w : World) :
  validateTransferRequest req = None →
  fails env BeginTx = false →
  session (Transfer env req w).2 = None
  ∧ ∃ body last,
      sent_by w (Transfer env req w).2 = (BeginTx :: body ++ [last])%list
      ∧ (last = Commit ∨ last = Rollback)
      ∧ ((BeginTx ∉ body) ∧ (Commit ∉ body) ∧ (Rollback ∉ body))
      ∧ (last = Commit → fails env Commit = false →
         ∃ transaction, (Transfer env req w).1 = Ok transaction)
      ∧ (last = Rollback → ∃ e, (Transfer env req w).1 = Err e).
Proof.
  intros Hv Hb. unfold_transfer. rewrite Hv. simpl. rewrite Hb. simpl.
  branches.
  all: split; [reflexivity|].
  all: erewrite sent_by_app; [|simpl; rewrite <- ?app_assoc; reflexivity].
  all: simpl.
  all: match goal with
       | |- ∃ body last, BeginTx :: ?l = _ ∧ _ =>
           exists (removelast l), (List.last l BeginTx)
       end; simpl.
  all: split; [reflexivity|].
  all: split; [auto|].
  all: repeat split; eauto; try congruence.
  all: intros Hin;
    repeat (apply elem_of_cons in Hin as [Hin|Hin]; [discriminate|]);
    by apply elem_of_nil in Hin.
Qed.

Lemma transfer_closes_its_transaction_witness :
  session (Transfer env_update_down scenario1_request world_two_accounts).2
  = None.
Proof.
  apply (transfer_closes_its_transaction env_update_down scenario1_request
           world_two_accounts); reflexivity.
Defined.

(** X5. Whatever the store does, every UPDATE of a balance that
    [Transfer] sends targets a row it locked earlier in the same
    transaction, and no write (UPDATE, transaction INSERT, audit INSERT)
    is sent before both rows of the request are locked. *)
Theorem transfer_writes_under_locks (env : Env)
    (req : CreateTransactionRequest) (w : World) :
  let sent := sent_by w (Transfer env req w).2 in
  updates_under_lock [] sent = true
  ∧ writes_after_locks (SourceAccountID req) (DestinationAccountID req) [] sent
    = true.
Proof.
  unfold_transfer.
  destruct (validateTransferRequest req) eqn:Hv; simpl.
  { rewrite sent_by_refl. done. }
  branches.
  all: erewrite sent_by_app; [|simpl; rewrite <- ?app_assoc; reflexivity].
  all: simpl.
  all: rewrite ?bool_decide_eq_true_2 by (by repeat constructor).
  all: done.
Qed.

(** X6. Whatever the store does, [Transfer] stops at the first statement
    that fails, audit INSERTs apart: after it nothing is sent but the
    [Rollback] of the open transaction. *)
Theorem transfer_stops_at_first_failure (env : Env)
    (req : CreateTransactionRequest) (w : World) :
  stops_at_failure env (sent_by w (Transfer env req w).2) = true.
Proof.
  unfold_transfer.
  destruct (validateTransferRequest req) eqn:Hv; simpl.
  { by rewrite sent_by_refl. }
  branches.
  all: erewrite sent_by_app; [|simpl; rewrite <- ?app_assoc; reflexivity].
  all: simpl.
  all: repeat match goal with H : fails _ _ = _ |- _ => rewrite H; clear H end.
  all: simpl; try done.
  all: repeat match goal with
              | |- context [fails ?e ?s] => destruct (fails e s)
              end; done.
Qed.

(** X7. The audit trail of a committed transfer.  The three audit INSERTs
    are sent in the order debit, credit, transfer and the sequence stops
    at the first one that fails; the entries committed are those that
    went before it: the debit of the source with its old and new balance,
    the credit of the destination with its old and new balance, and the
    transfer entry with the transaction's id and no old value.  Their
    entity types and actions are the lower-case literals of
    [createTransferAuditLog]. *)
Theorem transfer_audit_trail (env : Env) (req : CreateTransactionRequest)
    (w w' : World) (transaction : Transaction) :
  Transfer env req w = (Ok transaction, w') →
  let source := SourceAccountID req in
  let destination := DestinationAccountID req in
  let statements :=
    [InsertAuditLog true "account" source "debit";
     InsertAuditLog true "account" destination "credit";
     InsertAuditLog true "transaction" (Transaction_ID transaction) "transfer"] in
  let stored := count_until_failure (fails env <$> statements) in
  ∃ sourceAccount destinationAccount,
    accounts (committed w) !! source = Some sourceAccount
    ∧ accounts (committed w) !! destination = Some destinationAccount
    ∧ audit_statements (sent_by w w') = take (S stored) statements
    ∧ audit_view <$> audit_logs (committed w')
      = ((audit_view <$> audit_logs (committed w))
         ++ take stored
              [("account", source, "debit",
                marshal_or_nil (AccountBalanceSnapshot source
                                  (Account_Balance sourceAccount)),
                marshal_or_nil (AccountBalanceSnapshot source
                                  (PrimFloat.sub (Account_Balance sourceAccount)
                                                 (Amount req))));
               ("account", destination, "credit",
                marshal_or_nil (AccountBalanceSnapshot destination
                                  (Account_Balance destinationAccount)),
                marshal_or_nil (AccountBalanceSnapshot destination
                                  (PrimFloat.add
                                     (Account_Balance destinationAccount)
                                     (Amount req))));
               ("transaction", Transaction_ID transaction, "transfer",
                None,
                marshal_or_nil (TransactionSnapshot
                                  (Transaction_ID transaction) source
                                  destination (Amount req)))])%list.
Proof.
  intros H.
  destruct (validateTransferRequest req) as [e|] eqn:Hv.
  { unfold Transfer in H. rewrite Hv in H. discriminate. }
  destruct (validateTransferRequest_None req Hv) as (_ & _ & Hne & _).
  unfold_transfer. rewrite Hv in H.
  branches.
  all: rewrite lookup_insert_ne in * by done.
  all: simplify_eq.
  all: do 2 eexists; split; [eassumption|]; split; [eassumption|].
  all: (erewrite sent_by_app; [|simpl; rewrite <- ?app_assoc; reflexivity]).
  all: unfold audit_statements; simpl.
  all: repeat match goal with H : fails _ _ = _ |- _ => rewrite H end; simpl.
  all: rewrite ?fmap_app; simpl; rewrite <- ?app_assoc; simpl.
  all: split; [reflexivity|].
  all: rewrite ?app_nil_r; reflexivity.
Qed.

Lemma transfer_audit_trail_witness :
  audit_view <$> audit_logs (committed world_after_scenario1)
  = [("account", "acc001", "debit",
      Some (AccountBalanceSnapshot "acc001" 1000),
      Some (AccountBalanceSnapshot "acc001" 750));
     ("account", "acc002", "credit",
      Some (AccountBalanceSnapshot "acc002" 500),
      Some (AccountBalanceSnapshot "acc002" 750));
     ("transaction", "6f1c0e9a-0000-4000-8000-000000000001", "transfer",
      None,
      Some (TransactionSnapshot "6f1c0e9a-0000-4000-8000-000000000001"
              "acc001" "acc002" 250))].
Proof.
  destruct (transfer_audit_trail env_ok scenario1_request world_two_accounts
              world_after_scenario1 scenario1_transaction)
    as (sa & da & Hs & Hd & _ & H).
  - vm_compute. reflexivity.
  - vm_compute in Hs, Hd. injection Hs as <-. injection Hd as <-.
    exact H.
Defined.

(** X8. No operation of the two services makes a balance negative: if no
    stored balance is below zero, none is after [CreateAccount] or
    [Transfer], whatever they return and whatever the store does,
    float64 rounding of the debit and of the credit included. *)
Theorem balances_stay_non_negative (env : Env) (w : World) :
  balances_non_negative (committed w) →
  (∀ req, balances_non_negative
            (committed (AccountServiceImpl.CreateAccount env req w).2))
  ∧ (∀ req, balances_non_negative (committed (Transfer env req w).2)).
Proof.
  intros Hinv. split; intros req.
  - pose proof (CreateAccount_outcome env req w) as H.
    destruct (AccountServiceImpl.CreateAccount env req w) as [[account|e] w'];
      simpl.
    + destruct H as (_ & Hbal & _ & -> & Ha & _).
      intros id row. rewrite Ha.
      destruct (decide (id = CreateAccountRequest_ID req)) as [->|Hne].
      * rewrite lookup_insert_eq. by intros [= <-].
      * rewrite lookup_insert_ne by done. apply Hinv.
    + destruct H as [-> _]. exact Hinv.
  - pose proof (Transfer_outcome env req w) as H.
    destruct (Transfer env req w) as [[transaction|e] w']; simpl.
    + destruct H as (Hv & sa & da & ts & td & Hs & Hd & Hlt & Ha & _).
      destruct (validateTransferRequest_None req Hv) as (_ & _ & _ & Hpos).
      intros id row. rewrite Ha.
      destruct (decide (id = DestinationAccountID req)) as [->|Hnd].
      { rewrite lookup_insert_eq. intros [= <-]. simpl.
        apply float_add_not_negative; [|done]. by eapply Hinv. }
      rewrite lookup_insert_ne by done.
      destruct (decide (id = SourceAccountID req)) as [->|Hns].
      { rewrite lookup_insert_eq. intros [= <-]. simpl.
        by apply float_sub_not_negative. }
      rewrite lookup_insert_ne by done. apply Hinv.
    + rewrite H. exact Hinv.
Qed.

Lemma balances_stay_non_negative_witness :
  balances_non_negative (committed world_after_scenario1).
Proof.
  apply (proj2 (balances_stay_non_negative env_ok world_two_accounts
                  two_accounts_non_negative) scenario1_request).
Defined.

(** X9. Every account row sits under its own id, and stays there: the
    property is kept by [CreateAccount] and by [Transfer], whatever they
    return, and under it the account [GetAccount] returns carries the id
    that was asked for. *)
Theorem rows_stay_well_keyed (env : Env) (w : World) :
  well_keyed (committed w) →
  (∀ req, well_keyed (committed (AccountServiceImpl.CreateAccount env req w).2))
  ∧ (∀ req, well_keyed (committed (Transfer env req w).2))
  ∧ (∀ id account,
       (AccountServiceImpl.GetAccount env id w).1 = Ok account →
       Account_ID account = id).
Proof.
  intros Hinv. split; [|split].
  - intros req.
    pose proof (CreateAccount_outcome env req w) as H.
    destruct (AccountServiceImpl.CreateAccount env req w) as [[account|e] w'];
      simpl.
    + destruct H as (_ & _ & _ & -> & Ha & _).
      intros id row. rewrite Ha.
      destruct (decide (id = CreateAccountRequest_ID req)) as [->|Hne].
      * rewrite lookup_insert_eq. by intros [= <-].
      * rewrite lookup_insert_ne by done. apply Hinv.
    + destruct H as [-> _]. exact Hinv.
  - intros req.
    pose proof (Transfer_outcome env req w) as H.
    destruct (Transfer env req w) as [[transaction|e] w']; simpl.
    + destruct H as (Hv & sa & da & ts & td & Hs & Hd & Hlt & Ha & _).
      intros id row. rewrite Ha.
      destruct (decide (id = DestinationAccountID req)) as [->|Hnd].
      { rewrite lookup_insert_eq. intros [= <-]. simpl. by eapply Hinv. }
      rewrite lookup_insert_ne by done.
      destruct (decide (id = SourceAccountID req)) as [->|Hns].
      { rewrite lookup_insert_eq. intros [= <-]. simpl. by eapply Hinv. }
      rewrite lookup_insert_ne by done. apply Hinv.
    + rewrite H. exact Hinv.
  - intros id account. unfold_accounts.
    branches; intros; simplify_eq. by eapply Hinv.
Qed.

Lemma rows_stay_well_keyed_witness :
  well_keyed (committed world_after_scenario1).
Proof.
  apply (proj1 (proj2 (rows_stay_well_keyed env_ok world_two_accounts
                         two_accounts_well_keyed)) scenario1_request).
Defined.

End TransferProtocol.

(* ================================================================= *)
(** ** The account manager and the repositories *)

Section Accounts.

Import PostgresAccountRepository AccountServiceImpl.

(** X10. [CreateAccount] is all or nothing: whenever it returns an error
    the committed tables and the open transaction, if any, are as they
    were, and it sent at most the one INSERT of the account. *)
Theorem create_account_error_changes_nothing (env : Env)
    (req : CreateAccountRequest) (w w' : World) (e : error) :
  AccountServiceImpl.CreateAccount env req w = (Err e, w') →
  committed w' = committed w
  ∧ session w' = session w
  ∧ (sent_by w w' = []
     ∨ sent_by w w' = [InsertAccount (CreateAccountRequest_ID req)]).
Proof.
  unfold_accounts. intros H.
  branches; repeat split; try done.
  all: try (left; apply sent_by_refl).
  all: right; by apply sent_by_app.
Qed.

Lemma create_account_error_changes_nothing_witness :
  committed (AccountServiceImpl.CreateAccount env_ok
               (mkCreateAccountRequest "acc001" 5) world_two_accounts).2
  = committed world_two_accounts.
Proof.
  apply (create_account_error_changes_nothing env_ok
           (mkCreateAccountRequest "acc001" 5) world_two_accounts _
           ErrAccountAlreadyExists).
  vm_compute. reflexivity.
Defined.

(** X11. The audit entry of a created account.  When [CreateAccount]
    returns an account it appended at most one audit entry: the
    ACCOUNT/CREATE entry of the id with no old value and the snapshot of
    id and initial balance as new value, present exactly when the balance
    could be marshalled (it is not NaN or infinite) and the audit INSERT
    did not fail; the INSERT is not even sent when marshalling fails. *)
Theorem create_account_audit_entry (env : Env) (req : CreateAccountRequest)
    (w w' : World) (account : Account) :
  AccountServiceImpl.CreateAccount env req w = (Ok account, w') →
  let id := CreateAccountRequest_ID req in
  let balance := CreateAccountRequest_InitialBalance req in
  let recorded :=
    negb (PrimFloat.is_nan balance || PrimFloat.is_infinity balance)
    && negb (fails env (InsertAuditLog false EntityTypeAccount id
                                       AuditActionCreate)) in
  audit_view <$> audit_logs (committed w')
  = ((audit_view <$> audit_logs (committed w))
     ++ (if recorded
         then [(EntityTypeAccount, id, AuditActionCreate, None,
                Some (AccountBalanceSnapshot id balance))]
         else []))%list
  ∧ sent_by w w'
    = (InsertAccount id
       :: (if negb (PrimFloat.is_nan balance || PrimFloat.is_infinity balance)
           then [InsertAuditLog false EntityTypeAccount id AuditActionCreate]
           else []))%list.
Proof.
  intros H. cbv zeta.
  unfold_accounts. unfold json_Marshal in H. simpl in H.
  destruct (PrimFloat.is_nan _ || PrimFloat.is_infinity _) eqn:Hm;
    destruct (fails env (InsertAuditLog _ _ _ _)) eqn:Hf; simpl;
    branches.
  all: try congruence.
  all: split; [ rewrite ?fmap_app, ?app_nil_r; reflexivity | ].
  all: apply sent_by_app; simpl; by rewrite <- ?app_assoc.
Qed.

Lemma create_account_audit_entry_witness :
  audit_view
    <$> audit_logs
          (committed (AccountServiceImpl.CreateAccount env_ok
                        (mkCreateAccountRequest "acc003" 20)
                        world_two_accounts).2)
  = [(EntityTypeAccount, "acc003", AuditActionCreate, None,
      Some (AccountBalanceSnapshot "acc003" 20))].
Proof.
  apply (create_account_audit_entry env_ok (mkCreateAccountRequest "acc003" 20)
           world_two_accounts _ (mkAccount "acc003" 20 0%Z 0%Z)).
  vm_compute. reflexivity.
Defined.



(** X13. [AccountExists], when answered, says true exactly for the ids
    [GetAccountByID] finds and [CreateAccount] of the repository refuses
    as taken, false exactly for those [GetAccountByID] reports as
    [ErrAccountNotFound]; it changes no table. *)
Theorem AccountExists_agrees (env : Env) (id : string) (w : World) :
  fails env (SelectExists id) = false →
  fails env (SelectAccount id) = false →
  fails env (InsertAccount id) = false →
  ∃ exists_,
    (AccountExists env id w).1 = Ok exists_
    ∧ (exists_ = true ↔ ∃ account, (GetAccountByID env id w).1 = Ok account)
    ∧ (exists_ = false ↔ (GetAccountByID env id w).1 = Err ErrAccountNotFound)
    ∧ (exists_ = true ↔
       ∀ balance,
         (PostgresAccountRepository.CreateAccount env
            (mkAccount id balance 0%Z 0%Z) w).1.1
         = Some ErrAccountAlreadyExists)
    ∧ committed (AccountExists env id w).2 = committed w.
Proof.
  intros H1 H2 H3. unfold_accounts. simpl. rewrite H1, H2. simpl.
  setoid_rewrite H3.
  eexists. split; [reflexivity|].
  destruct (accounts (committed w) !! id) as [a|] eqn:Hl; simpl.
  - rewrite ?bool_decide_eq_true_2 by eauto.
    repeat split; eauto; try done.
  - rewrite ?bool_decide_eq_false_2 by (intros [? ?]; done).
    repeat split; try done.
    + intros [? ?]; done.
    + intros H. specialize (H 0%float). done.
Qed.

Lemma AccountExists_agrees_witness :
  ∃ exists_,
    (AccountExists env_ok "acc001" world_two_accounts).1 = Ok exists_
    ∧ (exists_ = true ↔
       ∃ account,
         (GetAccountByID env_ok "acc001" world_two_accounts).1 = Ok account).
Proof.
  destruct (AccountExists_agrees env_ok "acc001" world_two_accounts)
    as (b & H1 & H2 & _); try reflexivity.
  exists b. split; [exact H1 | exact H2].
Defined.



End Accounts.

Section Queries.

Import queries.

Lemma scan_audit_logs_fails (rows logs : list AuditLog) :
  rows ≠ [] →
  PostgresAuditRepository.scan_audit_logs rows logs
  = Err (Errorf "failed to scan audit log" DriverError).
Proof. by destruct rows. Qed.

(** X15. [GetByEntityID] cannot return an audit entry: its query selects
    seven columns and its Scan has six destinations, so as soon as one
    entry of the entity exists the call fails; it succeeds, with an empty
    list, only when the entity has no entry at all (and the query and the
    iteration do not fail).  This holds for every order in which the
    store returns the rows. *)
Theorem GetByEntityID_fails_on_match (failed rows_err : bool)
    (order_by : list AuditLog → list AuditLog)
    (entityType entityID : string) (t : Tables) :
  (∀ l, order_by l ≡ₚ l) →
  let matching :=
    List.filter (λ row, bool_decide (AuditLog_EntityType row = entityType)
                        && bool_decide (AuditLog_EntityID row = entityID))
                (audit_logs t) in
  let r := PostgresAuditRepository.GetByEntityID failed order_by rows_err
             entityType entityID t in
  (matching ≠ [] → ∃ e, r = Err e)
  ∧ (∀ logs, r = Ok logs → logs = [] ∧ matching = [])
  ∧ (matching = [] → failed = false → rows_err = false → r = Ok []).
Proof.
  intros Hperm matching r. subst r.
  unfold PostgresAuditRepository.GetByEntityID. fold matching.
  destruct (decide (matching = [])) as [Hm|Hm].
  - assert (order_by matching = []) as ->.
    { rewrite Hm. apply Permutation_nil_r. apply Hperm. }
    simpl. split; [done|]. split.
    + intros logs. destruct failed; [done|]. destruct rows_err; [done|].
      by intros [= <-].
    + by intros _ -> ->.
  - assert (order_by matching ≠ []) as Ho.
    { intros Ho. apply Hm. apply Permutation_nil_r.
      rewrite <- Ho. symmetry. apply Hperm. }
    rewrite scan_audit_logs_fails by done.
    split; [|split; [|done]].
    + intros _. destruct failed; eauto.
    + intros logs. by destruct failed.
Qed.

Lemma GetByEntityID_fails_on_match_witness :
  ∃ e, PostgresAuditRepository.GetByEntityID false reverse false
         EntityTypeAccount "acc001" tables_one_audit_entry
       = Err e.
Proof.
  apply (GetByEntityID_fails_on_match false false reverse EntityTypeAccount
           "acc001" tables_one_audit_entry).
  - intros l. apply reverse_Permutation.
  - discriminate.
Defined.



End Queries.

Section ErrorValues.

Import errors_text.

Lemma Is_wrap (l : wrapper) (err target : error) :
  is_sentinel target = true → Is (wrap l err) target = Is err target.
Proof.
  intros Ht. destruct l; simpl.
  - case_decide as Heq; [by subst target|done].
  - case_decide as Heq; [by subst target|done].
Qed.

(** X17. The predicates of errors.go look through wrapping: however many
    layers of [TransactionError] and [fmt.Errorf("...: %w")] surround an
    error, [IsNotFound], [IsInsufficientBalance], [IsAlreadyExists] and
    [IsValidationError] answer as on the error itself, while the wrapped
    value is no longer equal to any sentinel; on a sentinel each
    predicate holds for its own sentinel only. *)
Theorem predicates_see_through_wrapping (layers : list wrapper) (err : error) :
  let wrapped := foldr wrap err layers in
  IsNotFound wrapped = IsNotFound err
  ∧ IsInsufficientBalance wrapped = IsInsufficientBalance err
  ∧ IsAlreadyExists wrapped = IsAlreadyExists err
  ∧ IsValidationError wrapped = IsValidationError err
  ∧ (layers ≠ [] → is_sentinel wrapped = false)
  ∧ (is_sentinel err = true →
     IsNotFound wrapped = bool_decide (err = ErrAccountNotFound)
     ∧ IsInsufficientBalance wrapped = bool_decide (err = ErrInsufficentBalance)
     ∧ IsAlreadyExists wrapped = bool_decide (err = ErrAccountAlreadyExists)
     ∧ IsValidationError wrapped = false).
Proof.
  simpl. unfold IsNotFound, IsInsufficientBalance, IsAlreadyExists.
  induction layers as [|l layers IH]; simpl.
  - repeat split; try done.
    all: by destruct err.
  - destruct IH as (H1 & H2 & H3 & H4 & _ & H6).
    rewrite !Is_wrap by auto. rewrite H1, H2, H3.
    split; [done|]. split; [done|]. split; [done|].
    split; [by destruct l|]. split; [by destruct l|].
    intros Hs. destruct (H6 Hs) as (? & ? & ? & ?).
    repeat split; try congruence.
    destruct l; simpl; congruence.
Qed.

Lemma predicates_see_through_wrapping_witness :
  is_sentinel
    (foldr wrap ErrAccountNotFound
       [WrapTransactionError "update source account balance";
        WrapErrorf "source account"])
  = false.
Proof.
  refine (proj1 (proj2 (proj2 (proj2 (proj2
            (predicates_see_through_wrapping
               [WrapTransactionError "update source account balance";
                WrapErrorf "source account"] ErrAccountNotFound))))) _).
  discriminate.
Defined.

End ErrorValues.

(* ================================================================= *)
(** ** The HTTP handlers *)

Section Handlers.

Import errors_text utils handler.
Import PostgresAccountRepository TransactionServiceImpl.

Lemma Is_sentinel_text (lib1 lib2 : error → string) (target err : error) :
  is_sentinel target = true → Is err target = true →
  Error lib1 err = Error lib2 err.
Proof.
  intros Ht. induction err as [| | | | | | | | op c IH | p c IH | | | |];
    simpl; try done.
  - case_decide as Heq; [by subst target|]. intros Hc. by rewrite IH.
  - case_decide as Heq; [by subst target|]. intros Hc. by rewrite IH.
  - case_decide as Heq; [by subst target|done].
  - case_decide as Heq; [by subst target|done].
  - case_decide as Heq; [by subst target|done].
  - case_decide as Heq; [by subst target|done].
Qed.

Lemma IsValidationError_text (lib1 lib2 : error → string) (err : error) :
  IsValidationError err = true → Error lib1 err = Error lib2 err.
Proof.
  induction err as [| | | | | | | | op c IH | p c IH | | | |];
    simpl; try done.
  - intros H. by rewrite IH.
  - intros H. by rewrite IH.
Qed.

(** X18. No response to a service error carries the text of an error of
    database/sql, the driver or encoding/json: whatever those texts are,
    the two [handleServiceError] and the three handlers answer the same,
    on every request and in every state of the store. *)
Theorem responses_hide_library_errors (lib1 lib2 : error → string)
    (env : Env) (rw : ResponseWriter) (world : World) :
  (∀ err, TransactionHandler.handleServiceError lib1 rw err
          = TransactionHandler.handleServiceError lib2 rw err)
  ∧ (∀ err, AccountHandler.handleServiceError lib1 rw err
            = AccountHandler.handleServiceError lib2 rw err)
  ∧ (∀ r_Body, TransactionHandler.CreateTransaction lib1 env rw r_Body world
               = TransactionHandler.CreateTransaction lib2 env rw r_Body world)
  ∧ (∀ r_Body, AccountHandler.CreateAccount lib1 env rw r_Body world
               = AccountHandler.CreateAccount lib2 env rw r_Body world)
  ∧ (∀ id, AccountHandler.GetAccount lib1 env rw id world
           = AccountHandler.GetAccount lib2 env rw id world).
Proof.
  assert (∀ err, TransactionHandler.handleServiceError lib1 rw err
                 = TransactionHandler.handleServiceError lib2 rw err) as Ht.
  { intros err. unfold TransactionHandler.handleServiceError.
    destruct (IsNotFound err) eqn:H1.
    { by rewrite (Is_sentinel_text lib1 lib2 ErrAccountNotFound err). }
    destruct (IsInsufficientBalance err); [done|].
    destruct (IsValidationError err) eqn:H3.
    { by rewrite (IsValidationError_text lib1 lib2 err). }
    repeat case_decide; by subst. }
  assert (∀ err, AccountHandler.handleServiceError lib1 rw err
                 = AccountHandler.handleServiceError lib2 rw err) as Ha.
  { intros err. unfold AccountHandler.handleServiceError.
    destruct (IsNotFound err); [done|].
    destruct (IsAlreadyExists err); [done|].
    destruct (IsValidationError err) eqn:H3; [|done].
    by rewrite (IsValidationError_text lib1 lib2 err). }
  split; [exact Ht|]. split; [exact Ha|]. split; [|split].
  - intros [req|message]; simpl; [|done].
    destruct (Transfer env req world) as [[transaction|err] w']; [done|].
    by rewrite Ht.
  - intros [req|message]; simpl; [|done].
    destruct (AccountServiceImpl.CreateAccount env req world)
      as [[account|err] w']; [done|].
    by rewrite Ha.
  - intros id. unfold AccountHandler.GetAccount.
    case_decide; [done|].
    destruct (AccountServiceImpl.GetAccount env id world)
      as [[account|err] w']; [done|].
    by rewrite Ha.
Qed.

(** The status a handler answers an error with is one of three. *)
Lemma transaction_error_status (lib : error → string) (err : error) :
  ∃ status errorMsg details,
    TransactionHandler.handleServiceError lib NewRecorder err
    = answer status errorMsg details
    ∧ (status = StatusBadRequest ∨ status = StatusNotFound
       ∨ status = StatusInternalServerError)
    ∧ (status = StatusInternalServerError →
       errorMsg = "internal server error" ∧ details = "").
Proof.
  unfold TransactionHandler.handleServiceError.
  repeat case_match; do 3 eexists; (split; [reflexivity|]);
    split; auto; intros [=].
Qed.

(** X19. The answer of POST /transactions to a decoded request.  It is
    always JSON.  When [Transfer] returns a transaction the status is 201
    and the body echoes its id, the request's accounts and amount, and
    the creation time.  When [Transfer] returns an error the committed
    tables are as they were, the status is 400, 404 or 500, the body is
    one error document, and a 500 says "internal server error" with an
    empty message. *)
Theorem CreateTransaction_response (lib : error → string) (env : Env)
    (req : CreateTransactionRequest) (world : World) :
  let r := TransactionHandler.CreateTransaction lib env NewRecorder
             (Decoded req) world in
  ContentType r.1 = Some "application/json"
  ∧ match (Transfer env req world).1 with
    | Ok transaction =>
        statusCode r.1 = Some StatusCreated
        ∧ (PrimFloat.is_nan (Amount req) || PrimFloat.is_infinity (Amount req)
           = false →
           body r.1
           = [TransactionResponse (Transaction_ID transaction)
                (SourceAccountID req) (DestinationAccountID req) (Amount req)
                (Transaction_CreatedAt transaction)])
    | Err err =>
        committed r.2 = committed world
        ∧ ∃ status errorMsg details,
            statusCode r.1 = Some status
            ∧ body r.1 = [ErrorResponse errorMsg details]
            ∧ (status = StatusBadRequest ∨ status = StatusNotFound
               ∨ status = StatusInternalServerError)
            ∧ (status = StatusInternalServerError →
               errorMsg = "internal server error" ∧ details = "")
    end.
Proof.
  intros r. subst r. unfold TransactionHandler.CreateTransaction.
  pose proof (Transfer_outcome env req world) as Ho.
  destruct (Transfer env req world) as [[transaction|err] w']; simpl.
  - destruct Ho as (_ & sa & da & ts & td & _ & _ & _ & _ & _ & H1 & H2 & H3 & _).
    rewrite H1, H2, H3. unfold WriteJSON, Encode. simpl.
    destruct (PrimFloat.is_nan _ || PrimFloat.is_infinity _); simpl; auto.
    split; [done|]. split; [done|]. done.
  - destruct (transaction_error_status lib err)
      as (status & errorMsg & details & -> & Hs & H500).
    simpl. split; [done|]. split; [done|]. eauto 10.
Qed.

Lemma CreateTransaction_response_witness :
  body (TransactionHandler.CreateTransaction lib_text env_ok NewRecorder
          (Decoded scenario1_request) world_two_accounts).1
  = [TransactionResponse "6f1c0e9a-0000-4000-8000-000000000001"
       "acc001" "acc002" 250 7%Z].
Proof.
  refine (proj2 (proj2 (CreateTransaction_response lib_text env_ok
                          scenario1_request world_two_accounts)) _).
  reflexivity.
Defined.

(** The answer of the transaction handler to an error of [Transfer]. *)
Lemma CreateTransaction_on_error (lib : error → string) (env : Env)
    (req : CreateTransactionRequest) (world : World) (err : error) :
  (Transfer env req world).1 = Err err →
  (TransactionHandler.CreateTransaction lib env NewRecorder (Decoded req)
     world).1
  = TransactionHandler.handleServiceError lib NewRecorder err.
Proof.
  unfold TransactionHandler.CreateTransaction.
  destruct (Transfer env req world) as [[transaction|e] w']; simpl; congruence.
Qed.

(** X20. The error answers of POST /transactions.  A body that does not
    decode is answered 400 with the decoder's text and the service is not
    called.  A request that fails pre-validation is answered 400 with the
    text of its error and the world untouched.  A [BeginTx] that fails is
    answered 500 "internal server error".  A missing source or
    destination row is answered 404 with a message naming which of the
    two is missing.  A source balance below the amount is answered 400
    "insufficient balance". *)
Theorem CreateTransaction_error_statuses (lib : error → string) (env : Env)
    (req : CreateTransactionRequest) (world : World) :
  let post body :=
    TransactionHandler.CreateTransaction lib env NewRecorder body world in
  (∀ message,
     post (Malformed message)
     = (answer 400 "invalid request payload" message, world))
  ∧ (∀ err, validateTransferRequest req = Some err →
       (post (Decoded req)).2 = world
       ∧ ∃ errorMsg, (post (Decoded req)).1
                     = answer 400 errorMsg (Error lib err))
  ∧ (validateTransferRequest req = None → fails env BeginTx = true →
     (post (Decoded req)).1 = answer 500 "internal server error" "")
  ∧ (validateTransferRequest req = None → fails env BeginTx = false →
     fails env (SelectAccountForUpdate (SourceAccountID req)) = false →
     accounts (committed world) !! SourceAccountID req = None →
     (post (Decoded req)).1
     = answer 404 "acount not found" "source account: account not found")
  ∧ (∀ sourceAccount,
       validateTransferRequest req = None → fails env BeginTx = false →
       fails env (SelectAccountForUpdate (SourceAccountID req)) = false →
       fails env (SelectAccountForUpdate (DestinationAccountID req)) = false →
       accounts (committed world) !! SourceAccountID req = Some sourceAccount →
       (accounts (committed world) !! DestinationAccountID req = None →
        (post (Decoded req)).1
        = answer 404 "acount not found"
                 "destination account: account not found")
       ∧ (∀ destinationAccount,
            accounts (committed world) !! DestinationAccountID req
            = Some destinationAccount →
            PrimFloat.ltb (Account_Balance sourceAccount) (Amount req) = true →
            (post (Decoded req)).1
            = answer 400 "insufficient balance"
                "source account does not have enough funds for txn")).
Proof.
  intros post. subst post. cbv beta.
  split; [done|]. split; [|split; [|split]].
  - intros err Hv. unfold TransactionHandler.CreateTransaction.
    rewrite (Transfer_rejected env req world err Hv). simpl.
    split; [done|].
    revert Hv. unfold validateTransferRequest, NewValidationError.
    repeat case_decide; try destruct (PrimFloat.leb _ _);
      intros [= <-]; eexists; reflexivity.
  - intros Hv Hb. unfold TransactionHandler.CreateTransaction.
    by rewrite Transfer_begin_fails.
  - intros Hv Hb Hf Hnone.
    by erewrite CreateTransaction_on_error
      by by apply Transfer_source_missing.
  - intros sourceAccount Hv Hb Hfs Hfd Hs. split.
    + intros Hnone.
      by erewrite CreateTransaction_on_error
        by by eapply Transfer_destination_missing.
    + intros destinationAccount Hd Hlt.
      by erewrite CreateTransaction_on_error
        by by eapply Transfer_insufficient.
Qed.

Lemma CreateTransaction_error_statuses_witness :
  (TransactionHandler.CreateTransaction lib_text env_ok NewRecorder
     (Decoded (mkCreateTransactionRequest "acc001" "acc002" 10000))
     world_two_accounts).1
  = answer 400 "insufficient balance"
      "source account does not have enough funds for txn"
  ∧ (TransactionHandler.CreateTransaction lib_text env_down NewRecorder
       (Decoded scenario1_request) world_two_accounts).1
    = answer 500 "internal server error" "".
Proof.
  split.
  - refine (proj2 (proj2 (proj2 (proj2 (proj2
              (CreateTransaction_error_statuses lib_text env_ok
                 (mkCreateTransactionRequest "acc001" "acc002" 10000)
                 world_two_accounts))))
              acc001 _ _ _ _ _) acc002 _ _); reflexivity.
  - refine (proj1 (proj2 (proj2
              (CreateTransaction_error_statuses lib_text env_down
                 scenario1_request world_two_accounts))) _ _); reflexivity.
Defined.

(** X21. The answers of POST /accounts and GET /accounts/{id}.  An empty
    id is answered 400 by both without a statement being sent; a negative
    initial balance 400; a failing INSERT or SELECT 500 "internal server
    error"; a taken id 409 with the tables unchanged; a fresh id 201 with
    id and balance in the body; a missing row 404; a present row 200 with
    its id and balance in the body. *)
Theorem account_handler_statuses (lib : error → string) (env : Env)
    (id : string) (balance : float64) (world : World) :
  let post :=
    AccountHandler.CreateAccount lib env NewRecorder
      (Decoded (mkCreateAccountRequest id balance)) world in
  let get := AccountHandler.GetAccount lib env NewRecorder id world in
  (id = "" →
   post = (answer 400 "invalid account ID" "", world)
   ∧ get = (answer 400 "id is required" "", world))
  ∧ (id ≠ "" → PrimFloat.ltb balance 0 = true →
     post = (answer 400 "negative balance not allowed" "", world))
  ∧ (id ≠ "" → PrimFloat.ltb balance 0 = false →
     (fails env (InsertAccount id) = true →
      post.1 = answer 500 "internal server error" ""
      ∧ committed post.2 = committed world)
     ∧ (fails env (InsertAccount id) = false →
        match accounts (committed world) !! id with
        | Some _ =>
            post.1 = answer 409 "account already exists" ""
            ∧ committed post.2 = committed world
        | None =>
            statusCode post.1 = Some 201%Z
            ∧ (PrimFloat.is_nan balance || PrimFloat.is_infinity balance = false →
               body post.1 = [AccountResponse id balance])
        end))
  ∧ (id ≠ "" →
     (fails env (SelectAccount id) = true →
      get.1 = answer 500 "internal server error" "")
     ∧ (fails env (SelectAccount id) = false →
        match accounts (committed world) !! id with
        | None => get.1 = answer 404 "account not found" ""
        | Some account =>
            statusCode get.1 = Some 200%Z
            ∧ (PrimFloat.is_nan (Account_Balance account)
               || PrimFloat.is_infinity (Account_Balance account) = false →
               body get.1 = [AccountResponse (Account_ID account)
                                             (Account_Balance account)])
        end)).
Proof.
  intros post get. subst post get.
  unfold AccountHandler.CreateAccount, AccountHandler.GetAccount.
  unfold_accounts. simpl.
  split; [|split; [|split]].
  - intros ->. done.
  - intros Hid Hneg. case_decide; [done|]. by rewrite Hneg.
  - intros Hid Hbal. case_decide; [done|]. rewrite Hbal. split.
    + intros ->. done.
    + intros ->. destruct (accounts (committed world) !! id); simpl; [done|].
      unfold WriteJSON, Encode.
      destruct (json_Marshal _); [destruct (fails env _)|]; simpl;
        destruct (PrimFloat.is_nan balance || PrimFloat.is_infinity balance);
        simpl; split; done.
  - intros Hid. case_decide; [done|]. split.
    + intros ->. done.
    + intros ->. destruct (accounts (committed world) !! id) as [a|]; simpl;
        [|done].
      unfold WriteJSON, Encode. simpl.
      destruct (PrimFloat.is_nan _ || PrimFloat.is_infinity _);
        simpl; split; done.
Qed.

Lemma account_handler_statuses_witness :
  (AccountHandler.CreateAccount lib_text env_ok NewRecorder
     (Decoded (mkCreateAccountRequest "acc001" 500)) world_two_accounts).1
  = answer 409 "account already exists" ""
  ∧ (AccountHandler.GetAccount lib_text env_ok NewRecorder "ghost"
       world_two_accounts).1
    = answer 404 "account not found" "".
Proof.
  pose proof (account_handler_statuses lib_text env_ok "acc001" 500
                world_two_accounts) as (_ & _ & H & _).
  pose proof (account_handler_statuses lib_text env_ok "ghost" 500
                world_two_accounts) as (_ & _ & _ & G).
  split.
  - apply (proj2 (H ltac:(discriminate) eq_refl) eq_refl).
  - apply (proj2 (G ltac:(discriminate)) eq_refl).
Defined.

End Handlers.
